(** * InsightStream session controller (src/App.tsx, src/types.ts)

    A shallow embedding of the three handlers of the [App] component:
    [handleFileSelect], [handleSendMessage] and [handleReset], together
    with the pieces of React and of JavaScript they rely on:

    - the six [useState] cells form the record [Session]; a setter call
      is an update of one cell, either by a value or by an updater
      function ([SetStateAction]);
    - a handler is a finite program ([Prog]) over the store: updates of
      cells, calls to the outside (file reading, the parsers, the two
      remote services), clock reads and console output, with JavaScript's
      [throw], [try]/[catch]/[finally];
    - a handler never reads the store: it reads the values its closure
      captured at the render that created it, so [handleSendMessage]
      takes that render's [Session] as a parameter;
    - an awaited call suspends the handler; whatever other handlers do to
      the store in the meantime is the [meanwhile] component of the
      environment. *)

From Stdlib Require Import String Ascii List Bool ZArith Lia PrimFloat.
Import ListNotations.
Local Open Scope string_scope.
Local Open Scope list_scope.

Set Implicit Arguments.

(** ** Data model (src/types.ts) *)

(** A JavaScript [number] is an IEEE binary64 value. *)
Definition number : Type := float.

(** [Date]: milliseconds since the epoch. *)
Definition Date : Type := Z.

Module ChartPoint.
Record t : Type := mk
  { name : string;
    value : number;
    category : option string }.
End ChartPoint.

Inductive Trend : Type := up | down | neutral.

Inductive StatValue : Type :=
| StatString (s : string)
| StatNumber (n : number).

Module Statistic.
Record t : Type := mk
  { label : string;
    value : StatValue;
    trend : option Trend }.
End Statistic.

Record DataAnalysisResult : Type := mkDataAnalysisResult
  { summary : string;
    keyInsights : list string;
    suggestions : list string;
    chartData : list ChartPoint.t;
    statistics : list Statistic.t }.

Inductive Role : Type := user | model.

Module ChatMessage.
Record t : Type := mk
  { role : Role;
    text : string;
    timestamp : Date }.
End ChatMessage.

Module FileData.
Record t : Type := mk
  { name : string;
    content : string;
    type : string }.
End FileData.

(** The browser's [File]: the handlers use its [name]; the bytes are only
    handed to the readers and parsers. *)
Module File.
Record t : Type := mk
  { name : string;
    bytes : string }.
End File.

Inductive Nullish : Type := JsNull | JsUndefined.

(** A thrown value, seen as [catch (err: any)] sees it.  Anything can be
    thrown: [null] or [undefined], on which no property can be read, or a
    value on which [err.message] is a string or is absent ([undefined]):
    an [Error] object, any other object, a primitive. *)
Inductive JsError : Type :=
| ThrownNullish (v : Nullish)
| ThrownObject (message : option string).

(** [new Error(msg)]. *)
Definition Error (msg : string) : JsError := ThrownObject (Some msg).

(** The [TypeError] that reading [message] on [null] or [undefined]
    throws, with the wording of the V8 engine. *)
Definition cannotReadMessage (v : Nullish) : JsError :=
  match v with
  | JsNull => Error "Cannot read properties of null (reading 'message')"
  | JsUndefined =>
      Error "Cannot read properties of undefined (reading 'message')"
  end.

(** ** The component state: the six [useState] cells of [App] *)

Record Session : Type := mkSession
  { isProcessing : bool;
    fileData : option FileData.t;
    analysis : option DataAnalysisResult;
    chatMessages : list ChatMessage.t;
    isChatLoading : bool;
    error : option string }.

(** State at application start: the initial values given to [useState]. *)
Definition initialSession : Session :=
  {| isProcessing := false;
     fileData := None;
     analysis := None;
     chatMessages := [];
     isChatLoading := false;
     error := None |}.

(** React's [SetStateAction<S>]: a new value, or a function of the
    previous one. *)
Inductive SetStateAction (S : Type) : Type :=
| Value (v : S)
| Updater (f : S -> S).

Definition applyAction {S : Type} (a : SetStateAction S) (prev : S) : S :=
  match a with
  | Value v => v
  | Updater f => f prev
  end.

(** ** Calls that leave the component *)

(** The turn history handed to the chat service: [{ role, text }]. *)
Definition Turn : Type := (Role * string)%type.

Inductive ExtCall : Type -> Type :=
| FileText (file : File.t) : ExtCall string
| ParseCSV (text : string) : ExtCall string
| ParseExcel (file : File.t) : ExtCall string
| ParsePDF (file : File.t) : ExtCall string
| AnalyzeData (fileName content : string) : ExtCall DataAnalysisResult
| ChatWithData (question context : string) (history : list Turn)
    : ExtCall string.

(** [parseCSV] is called synchronously; every other call is awaited. *)
Definition awaited {R : Type} (c : ExtCall R) : bool :=
  match c with
  | ParseCSV _ => false
  | _ => true
  end.

Inductive Outcome (R : Type) : Type :=
| Resolved (r : R)
| Rejected (e : JsError).
Arguments Rejected {R} e.

(** ** Handler programs *)

Inductive Prog (A : Type) : Type :=
| Ret (a : A)
| Throw (e : JsError)
| Update (u : Session -> Session) (k : Prog A)
| Now (k : Date -> Prog A)
| ConsoleError (e : JsError) (k : Prog A)
| Ext (R : Type) (c : ExtCall R) (k : R -> Prog A) (h : JsError -> Prog A).
Arguments Ret {A} a.
Arguments Throw {A} e.
Arguments Ext {A R} c k h.

Fixpoint bind {A B : Type} (p : Prog A) (f : A -> Prog B) : Prog B :=
  match p with
  | Ret a => f a
  | Throw e => Throw e
  | Update u k => Update u (bind k f)
  | Now k => Now (fun d => bind (k d) f)
  | ConsoleError e k => ConsoleError e (bind k f)
  | Ext c k h => Ext c (fun r => bind (k r) f) (fun e => bind (h e) f)
  end.

(** [try { p } catch (err) { handler err }] *)
Fixpoint tryCatch {A : Type} (p : Prog A) (handler : JsError -> Prog A)
  : Prog A :=
  match p with
  | Ret a => Ret a
  | Throw e => handler e
  | Update u k => Update u (tryCatch k handler)
  | Now k => Now (fun d => tryCatch (k d) handler)
  | ConsoleError e k => ConsoleError e (tryCatch k handler)
  | Ext c k h =>
      Ext c (fun r => tryCatch (k r) handler) (fun e => tryCatch (h e) handler)
  end.

(** [try { p } finally { f }]: [f] runs whether [p] returns or throws, and
    the outcome of [p] stands unless [f] itself throws. *)
Fixpoint tryFinally {A : Type} (p : Prog A) (f : Prog unit) : Prog A :=
  match p with
  | Ret a => bind f (fun _ => Ret a)
  | Throw e => bind f (fun _ => Throw e)
  | Update u k => Update u (tryFinally k f)
  | Now k => Now (fun d => tryFinally (k d) f)
  | ConsoleError e k => ConsoleError e (tryFinally k f)
  | Ext c k h =>
      Ext c (fun r => tryFinally (k r) f) (fun e => tryFinally (h e) f)
  end.

Declare Scope prog_scope.
Delimit Scope prog_scope with prog.
Bind Scope prog_scope with Prog.
Notation "x <- p ;; q" := (bind p (fun x => q))
  (at level 61, p at next level, right associativity) : prog_scope.
Notation "p ;; q" := (bind p (fun _ => q))
  (at level 61, right associativity) : prog_scope.
Local Open Scope prog_scope.

(** A call whose rejection (or exception) is thrown at the call site. *)
Definition call {R : Type} (c : ExtCall R) : Prog R := Ext c Ret Throw.

(** [new Date()] *)
Definition newDate : Prog Date := Now Ret.

(** [console.error(err)] *)
Definition consoleError (e : JsError) : Prog unit := ConsoleError e (Ret tt).

(** [err.message]: throws on [null] and [undefined]. *)
Definition getMessage (err : JsError) : Prog (option string) :=
  match err with
  | ThrownNullish v => Throw (cannotReadMessage v)
  | ThrownObject message => Ret message
  end.

(** *** The six setters *)

Definition setIsProcessing (a : SetStateAction bool) : Prog unit :=
  Update (fun s =>
    {| isProcessing := applyAction a (isProcessing s);
       fileData := fileData s;
       analysis := analysis s;
       chatMessages := chatMessages s;
       isChatLoading := isChatLoading s;
       error := error s |}) (Ret tt).

Definition setFileData (a : SetStateAction (option FileData.t)) : Prog unit :=
  Update (fun s =>
    {| isProcessing := isProcessing s;
       fileData := applyAction a (fileData s);
       analysis := analysis s;
       chatMessages := chatMessages s;
       isChatLoading := isChatLoading s;
       error := error s |}) (Ret tt).

Definition setAnalysis (a : SetStateAction (option DataAnalysisResult))
  : Prog unit :=
  Update (fun s =>
    {| isProcessing := isProcessing s;
       fileData := fileData s;
       analysis := applyAction a (analysis s);
       chatMessages := chatMessages s;
       isChatLoading := isChatLoading s;
       error := error s |}) (Ret tt).

Definition setChatMessages (a : SetStateAction (list ChatMessage.t))
  : Prog unit :=
  Update (fun s =>
    {| isProcessing := isProcessing s;
       fileData := fileData s;
       analysis := analysis s;
       chatMessages := applyAction a (chatMessages s);
       isChatLoading := isChatLoading s;
       error := error s |}) (Ret tt).

Definition setIsChatLoading (a : SetStateAction bool) : Prog unit :=
  Update (fun s =>
    {| isProcessing := isProcessing s;
       fileData := fileData s;
       analysis := analysis s;
       chatMessages := chatMessages s;
       isChatLoading := applyAction a (isChatLoading s);
       error := error s |}) (Ret tt).

Definition setError (a : SetStateAction (option string)) : Prog unit :=
  Update (fun s =>
    {| isProcessing := isProcessing s;
       fileData := fileData s;
       analysis := analysis s;
       chatMessages := chatMessages s;
       isChatLoading := isChatLoading s;
       error := applyAction a (error s) |}) (Ret tt).

(** ** Running a handler *)

(** The world around a running handler.  Every clock read and every
    outside call takes one tick; [respond n c] is what call [c] issued at
    tick [n] settles with, [clock n] is the time read at tick [n], and
    [meanwhile n] is what other handlers do to the store while the call
    issued at tick [n] is awaited. *)
Record Env : Type := mkEnv
  { respond : nat -> forall R : Type, ExtCall R -> Outcome R;
    clock : nat -> Date;
    meanwhile : nat -> Session -> Session }.

(** The same world with nothing else running during the awaits. *)
Definition alone (env : Env) : Env :=
  {| respond := respond env;
     clock := clock env;
     meanwhile := fun _ s => s |}.

Inductive Event : Type :=
| EvCall (R : Type) (c : ExtCall R) (o : Outcome R)
    (issued settled : Session)
| EvConsole (e : JsError).
Arguments EvCall {R} c o issued settled.

Inductive Completion (A : Type) : Type :=
| Returned (a : A)
| Thrown (e : JsError).
Arguments Thrown {A} e.

Record Run (A : Type) : Type := mkRun
  { final : Session;
    completion : Completion A;
    trace : list Event;
    ticks : nat }.

Definition logged {A : Type} (ev : Event) (r : Run A) : Run A :=
  {| final := final r;
     completion := completion r;
     trace := ev :: trace r;
     ticks := ticks r |}.

Fixpoint run {A : Type} (env : Env) (p : Prog A) (n : nat) (s : Session)
  : Run A :=
  match p with
  | Ret a =>
      {| final := s; completion := Returned a; trace := []; ticks := n |}
  | Throw e =>
      {| final := s; completion := Thrown e; trace := []; ticks := n |}
  | Update u k => run env k n (u s)
  | Now k => run env (k (clock env n)) (S n) s
  | ConsoleError e k => logged (EvConsole e) (run env k n s)
  | Ext c k h =>
      let s' := if awaited c then meanwhile env n s else s in
      let o := respond env n c in
      logged (EvCall c o s s')
        match o with
        | Resolved r => run env (k r) (S n) s'
        | Rejected e => run env (h e) (S n) s'
        end
  end.

(** ** The JavaScript operations the handlers use *)

Module Js.

(** [s.split(sep)] for a one-character separator: the pieces between
    the separators, in order; never empty. *)
Fixpoint split (sep : ascii) (s : string) : list string :=
  match s with
  | EmptyString => [EmptyString]
  | String c rest =>
      if Ascii.eqb c sep then EmptyString :: split sep rest
      else match split sep rest with
           | [] => [String c EmptyString]
           | piece :: pieces => String c piece :: pieces
           end
  end.

(** [a.pop()]: the last element, [undefined] on an empty array. *)
Fixpoint pop {A : Type} (a : list A) : option A :=
  match a with
  | [] => None
  | [x] => Some x
  | _ :: rest => pop rest
  end.

Definition lowerChar (c : ascii) : ascii :=
  let n := nat_of_ascii c in
  if (65 <=? n)%nat && (n <=? 90)%nat then ascii_of_nat (n + 32) else c.

(** [s.toLowerCase()], on the letters A to Z.  The handlers only compare
    the result with lower-case ASCII literals, and no character outside
    A to Z is lowered to a letter of those literals. *)
Fixpoint toLowerCase (s : string) : string :=
  match s with
  | EmptyString => EmptyString
  | String c rest => String (lowerChar c) (toLowerCase rest)
  end.

(** [x?.f()] *)
Definition optChain {A B : Type} (x : option A) (f : A -> B) : option B :=
  match x with
  | Some a => Some (f a)
  | None => None
  end.

(** [x === 'literal'] for [x : string | undefined]. *)
Definition strictEq (x : option string) (literal : string) : bool :=
  match x with
  | Some s => String.eqb s literal
  | None => false
  end.

(** Truthiness of a [string | undefined]. *)
Definition truthy (x : option string) : bool :=
  match x with
  | Some EmptyString => false
  | Some _ => true
  | None => false
  end.

(** [x || fallback] for [x : string | undefined]. *)
Definition orElse (x : option string) (fallback : string) : string :=
  match x with
  | Some s => if truthy x then s else fallback
  | None => fallback
  end.

(** [prefix + x] for [x : string | undefined]: [undefined] is turned
    into the text [undefined]. *)
Definition plus (prefix : string) (x : option string) : string :=
  match x with
  | Some s => prefix ++ s
  | None => prefix ++ "undefined"
  end.

End Js.

Infix "===" := Js.strictEq (at level 70, no associativity).

(** ** The handlers of [App] (src/App.tsx) *)

(** Line 23: [file.name.split('.').pop()?.toLowerCase()]. *)
Definition extensionOf (file : File.t) : option string :=
  Js.optChain (Js.pop (Js.split "." (File.name file))) Js.toLowerCase.

Definition unsupportedMessage : string :=
  "Unsupported file format. Please upload CSV, Excel, or PDF.".

Definition processingFallback : string :=
  "An error occurred during file processing.".

Definition chatFallback : string := "Sorry, I could not process that.".

(** Lines 25-34: the [if]/[else] chain that gives [content] its value. *)
Definition extract (file : File.t) (extension : option string)
  : Prog string :=
  if extension === "csv" then
    text <- call (FileText file) ;;
    call (ParseCSV text)
  else if (extension === "xlsx") || (extension === "xls") then
    call (ParseExcel file)
  else if extension === "pdf" then
    call (ParsePDF file)
  else
    Throw (Error unsupportedMessage).

(** Lines 22-41: the [try] block of [handleFileSelect]. *)
Definition uploadAttempt (file : File.t) : Prog unit :=
  let extension := extensionOf file in
  content <- extract file extension ;;
  setFileData (Value (Some {| FileData.name := File.name file;
                              FileData.content := content;
                              FileData.type := Js.orElse extension "" |})) ;;
  result <- call (AnalyzeData (File.name file) content) ;;
  setAnalysis (Value (Some result)) ;;
  setChatMessages (Value []).

(** Lines 18-48. *)
Definition handleFileSelect (file : File.t) : Prog unit :=
  setIsProcessing (Value true) ;;
  setError (Value None) ;;
  tryFinally
    (tryCatch (uploadAttempt file)
       (fun err =>
          consoleError err ;;
          message <- getMessage err ;;
          setError (Value (Some (Js.orElse message processingFallback)))))
    (setIsProcessing (Value false)).

(** Line 61: [chatMessages.map(m => ({ role: m.role, text: m.text }))]. *)
Definition stripTimestamp (m : ChatMessage.t) : Turn :=
  (ChatMessage.role m, ChatMessage.text m).

(** Lines 50-72.  [render] holds the values of [fileData] and
    [chatMessages] that the closure captured. *)
Definition handleSendMessage (render : Session) (text : string) : Prog unit :=
  match fileData render with
  | None => Ret tt
  | Some file =>
      now <- newDate ;;
      let userMsg := {| ChatMessage.role := user;
                        ChatMessage.text := text;
                        ChatMessage.timestamp := now |} in
      setChatMessages (Updater (fun prev => prev ++ [userMsg])) ;;
      setIsChatLoading (Value true) ;;
      tryFinally
        (tryCatch
           (response <- call (ChatWithData text (FileData.content file)
                                (map stripTimestamp (chatMessages render))) ;;
            now <- newDate ;;
            let aiMsg :=
              {| ChatMessage.role := model;
                 ChatMessage.text := Js.orElse (Some response) chatFallback;
                 ChatMessage.timestamp := now |} in
            setChatMessages (Updater (fun prev => prev ++ [aiMsg])))
           (fun err =>
              message <- getMessage err ;;
              now <- newDate ;;
              let errMsg :=
                {| ChatMessage.role := model;
                   ChatMessage.text := Js.plus "Error: " message;
                   ChatMessage.timestamp := now |} in
              setChatMessages (Updater (fun prev => prev ++ [errMsg]))))
        (setIsChatLoading (Value false))
  end.

(** Lines 74-79. *)
Definition handleReset : Prog unit :=
  setFileData (Value None) ;;
  setAnalysis (Value None) ;;
  setChatMessages (Value []) ;;
  setError (Value None).

(** ** The component as a whole *)

(** What the presentation layer can ask of the controller. *)
Inductive Intent : Type :=
| FileSelected (file : File.t)
| MessageSent (text : string)
| ResetClicked.

(** One render of [App]: the handlers it creates close over [render]. *)
Definition App (render : Session) (i : Intent) : Prog unit :=
  match i with
  | FileSelected file => handleFileSelect file
  | MessageSent text => handleSendMessage render text
  | ResetClicked => handleReset
  end.

(** Lines 91 and 103-146: which control is on screen in a given state.
    The upload form shows when there is no analysis and nothing is being
    processed, the chat when analysis and file are both present and
    nothing is being processed, the reset button whenever a file is
    present. *)
Definition offered (s : Session) (i : Intent) : bool :=
  let present {A : Type} (x : option A) :=
    match x with Some _ => true | None => false end in
  match i with
  | FileSelected _ => negb (present (analysis s)) && negb (isProcessing s)
  | MessageSent _ =>
      negb (negb (present (analysis s)) && negb (isProcessing s))
      && negb (isProcessing s)
      && present (analysis s) && present (fileData s)
  | ResetClicked => present (fileData s)
  end.

(** The user acts on what is on screen: the handler of the latest render
    runs against the current store. *)
Definition dispatch (env : Env) (i : Intent) (s : Session) : Run unit :=
  run env (App s i) 0 s.

(** An environment in which the user clicks reset while the call issued
    at tick [tick] is awaited. *)
Definition resetDuring (tick : nat) (env : Env) : Env :=
  {| respond := respond env;
     clock := clock env;
     meanwhile := fun n s =>
       if Nat.eqb n tick then final (dispatch (alone env) ResetClicked s)
       else s |}.

(** ** Vocabulary of the statements *)

(** *** Runs in sequence *)

Definition prefixed {A : Type} (tr : list Event) (r : Run A) : Run A :=
  {| final := final r;
     completion := completion r;
     trace := tr ++ trace r;
     ticks := ticks r |}.

Definition andThen {A B : Type} (r : Run A)
    (next : A -> nat -> Session -> Run B) : Run B :=
  match completion r with
  | Returned a => prefixed (trace r) (next a (ticks r) (final r))
  | Thrown e =>
      {| final := final r; completion := Thrown e;
         trace := trace r; ticks := ticks r |}
  end.

Definition orCatch {A : Type} (r : Run A)
    (handler : JsError -> nat -> Session -> Run A) : Run A :=
  match completion r with
  | Returned a =>
      {| final := final r; completion := Returned a;
         trace := trace r; ticks := ticks r |}
  | Thrown e => prefixed (trace r) (handler e (ticks r) (final r))
  end.

Definition andFinally {A : Type} (r : Run A)
    (cleanup : nat -> Session -> Run unit) : Run A :=
  let c := cleanup (ticks r) (final r) in
  {| final := final c;
     completion := match completion c with
                   | Returned _ => completion r
                   | Thrown e => Thrown e
                   end;
     trace := trace r ++ trace c;
     ticks := ticks c |}.

(** What a settled call gives to the code that awaited it. *)
Definition settle {R : Type} (o : Outcome R) : Completion R :=
  match o with
  | Resolved r => Returned r
  | Rejected e => Thrown e
  end.

(** *** Uploads *)

Definition supportedExtensions : list string := ["csv"; "xlsx"; "xls"; "pdf"].

(** The extraction step of an upload, run on its own: the first thing an
    upload does, so its calls start at tick 0. *)
Definition extraction (env : Env) (file : File.t) : Run string :=
  run (alone env) (extract file (extensionOf file)) 0 initialSession.

(** The error, if any, with which the [try] block of an upload ends. *)
Definition uploadFailure (env : Env) (file : File.t) : option JsError :=
  match completion (run (alone env) (uploadAttempt file) 0 initialSession) with
  | Returned _ => None
  | Thrown e => Some e
  end.

(** The [FileData] that line 36 stores for [file] once [content] is
    extracted. *)
Definition ingested (file : File.t) (content : string) : FileData.t :=
  {| FileData.name := File.name file;
     FileData.content := content;
     FileData.type := Js.orElse (extensionOf file) "" |}.

(** The error message that the [catch] block of an upload records for a
    thrown value: none when reading the value's message throws. *)
Definition recordedError (e : JsError) : option string :=
  match e with
  | ThrownObject message => Some (Js.orElse message processingFallback)
  | ThrownNullish _ => None
  end.

(** How a [catch] block that reads the message of [e] completes. *)
Definition caught (e : JsError) : Completion unit :=
  match e with
  | ThrownObject _ => Returned tt
  | ThrownNullish v => Thrown (cannotReadMessage v)
  end.

Definition failedUpload (s : Session) (file : option FileData.t) (e : JsError)
  : Session :=
  {| isProcessing := false;
     fileData := file;
     analysis := analysis s;
     chatMessages := chatMessages s;
     isChatLoading := isChatLoading s;
     error := recordedError e |}.

Definition completedUpload (s : Session) (file : FileData.t)
    (result : DataAnalysisResult) : Session :=
  {| isProcessing := false;
     fileData := Some file;
     analysis := Some result;
     chatMessages := [];
     isChatLoading := isChatLoading s;
     error := None |}.

(** The three extraction strategies of the specification, the extension
    that selects each, and the calls each consists of. *)
Inductive Strategy : Type :=
| CsvPassthrough
| SpreadsheetConversion
| DocumentExtraction.

Definition strategyFor (extension : option string) : option Strategy :=
  match extension with
  | Some ext =>
      if String.eqb ext "csv" then Some CsvPassthrough
      else if String.eqb ext "xlsx" then Some SpreadsheetConversion
      else if String.eqb ext "xls" then Some SpreadsheetConversion
      else if String.eqb ext "pdf" then Some DocumentExtraction
      else None
  | None => None
  end.

Definition perform (st : Strategy) (file : File.t) : Prog string :=
  match st with
  | CsvPassthrough => text <- call (FileText file) ;; call (ParseCSV text)
  | SpreadsheetConversion => call (ParseExcel file)
  | DocumentExtraction => call (ParsePDF file)
  end.

Definition strategyOutcome (env : Env) (st : Strategy) (file : File.t)
  : Completion string :=
  match st with
  | CsvPassthrough =>
      match respond env 0 (FileText file) with
      | Resolved text => settle (respond env 1 (ParseCSV text))
      | Rejected e => Thrown e
      end
  | SpreadsheetConversion => settle (respond env 0 (ParseExcel file))
  | DocumentExtraction => settle (respond env 0 (ParsePDF file))
  end.

(** *** Chat turns *)

(** The chat call of a turn started in state [s] with [file] loaded.  The
    clock is read at tick 0 for the user message, the call is issued at
    tick 1, and the clock is read again at tick 2 for the reply. *)
Definition chatRequest (s : Session) (file : FileData.t) (text : string)
  : ExtCall string :=
  ChatWithData text (FileData.content file)
    (map (fun m => (ChatMessage.role m, ChatMessage.text m)) (chatMessages s)).

Definition userMessage (env : Env) (text : string) : ChatMessage.t :=
  {| ChatMessage.role := user;
     ChatMessage.text := text;
     ChatMessage.timestamp := clock env 0 |}.

Definition modelMessage (env : Env) (body : string) : ChatMessage.t :=
  {| ChatMessage.role := model;
     ChatMessage.text := body;
     ChatMessage.timestamp := clock env 2 |}.

(** The text of the model message that a chat turn appends when its
    call settles with [o]: none when the [catch] block throws on reading
    the message of the rejection. *)
Definition replyBody (o : Outcome string) : option string :=
  match o with
  | Resolved response => Some (Js.orElse (Some response) chatFallback)
  | Rejected (ThrownObject message) => Some (Js.plus "Error: " message)
  | Rejected (ThrownNullish _) => None
  end.

(** How a chat turn completes when its call settles with [o]. *)
Definition turnCompletion (o : Outcome string) : Completion unit :=
  match o with
  | Resolved _ => Returned tt
  | Rejected e => caught e
  end.

Definition awaitingReply (s : Session) (m : ChatMessage.t) : Session :=
  {| isProcessing := isProcessing s;
     fileData := fileData s;
     analysis := analysis s;
     chatMessages := chatMessages s ++ [m];
     isChatLoading := true;
     error := error s |}.

Definition replied (s : Session) (m : ChatMessage.t) : Session :=
  {| isProcessing := isProcessing s;
     fileData := fileData s;
     analysis := analysis s;
     chatMessages := chatMessages s ++ [m];
     isChatLoading := false;
     error := error s |}.

(** The store at the end of a chat turn whose call settled, with [o], in
    store [found]. *)
Definition turnEnd (env : Env) (found : Session) (o : Outcome string)
  : Session :=
  {| isProcessing := isProcessing found;
     fileData := fileData found;
     analysis := analysis found;
     chatMessages :=
       match replyBody o with
       | Some body => chatMessages found ++ [modelMessage env body]
       | None => chatMessages found
       end;
     isChatLoading := false;
     error := error found |}.

Definition cleared (s : Session) : Session :=
  {| isProcessing := isProcessing s;
     fileData := None;
     analysis := None;
     chatMessages := [];
     isChatLoading := isChatLoading s;
     error := None |}.

(** ** Concrete files, worlds and sessions *)

Definition csvText : string := "a,b" ++ String "010" "1,2".

Definition dataCsv : File.t := {| File.name := "data.csv"; File.bytes := csvText |}.
Definition reportDocx : File.t := {| File.name := "report.docx"; File.bytes := "PK" |}.
Definition scanPdf : File.t := {| File.name := "scan.pdf"; File.bytes := "%PDF-1.7" |}.

Definition stubAnalysis : DataAnalysisResult :=
  {| summary := "ok";
     keyInsights := [];
     suggestions := [];
     chartData := [];
     statistics := [] |}.

(** A world in which reading a file gives its bytes, [parseCSV] passes
    text through, and the PDF parser, the analysis service and the chat
    service settle as given. *)
Definition world (pdf : Outcome string)
    (analysisReply : Outcome DataAnalysisResult)
    (chatReply : Outcome string) : Env :=
  {| respond := fun _ R (c : ExtCall R) =>
       match c in ExtCall T return Outcome T with
       | FileText file => Resolved (File.bytes file)
       | ParseCSV text => Resolved text
       | ParseExcel file => Resolved (File.bytes file)
       | ParsePDF _ => pdf
       | AnalyzeData _ _ => analysisReply
       | ChatWithData _ _ _ => chatReply
       end;
     clock := fun n => (1700000000000 + Z.of_nat n)%Z;
     meanwhile := fun _ s => s |}.

Definition quotaError : JsError := Error "Quota exceeded".
Definition pdfError : JsError := Error "Invalid PDF structure".
Definition networkError : JsError := Error "Failed to fetch".

Definition fineWorld : Env :=
  world (Resolved "page one") (Resolved stubAnalysis)
    (Resolved "It has two columns.").
Definition analysisDown : Env :=
  world (Resolved "page one") (Rejected quotaError)
    (Resolved "It has two columns.").
Definition pdfUnreadable : Env :=
  world (Rejected pdfError) (Resolved stubAnalysis)
    (Resolved "It has two columns.").
Definition silentModel : Env :=
  world (Resolved "page one") (Resolved stubAnalysis) (Resolved "").
Definition chatDown : Env :=
  world (Resolved "page one") (Resolved stubAnalysis) (Rejected networkError).
Definition analysisRejectsNull : Env :=
  world (Resolved "page one") (Rejected (ThrownNullish JsNull))
    (Resolved "It has two columns.").
Definition chatRejectsUndefined : Env :=
  world (Resolved "page one") (Resolved stubAnalysis)
    (Rejected (ThrownNullish JsUndefined)).
Definition analysisRejectsBare : Env :=
  world (Resolved "page one") (Rejected (ThrownObject None))
    (Resolved "It has two columns.").

(** The session after [data.csv] was uploaded and analysed. *)
Definition readySession : Session :=
  {| isProcessing := false;
     fileData := Some {| FileData.name := "data.csv";
                         FileData.content := csvText;
                         FileData.type := "csv" |};
     analysis := Some stubAnalysis;
     chatMessages := [];
     isChatLoading := false;
     error := None |}.

(** The session left when reset is clicked while a chat call is in
    flight and the call then settles: no file, no analysis, and the late
    reply in the chat history. *)
Definition staleSession : Session :=
  {| isProcessing := false;
     fileData := None;
     analysis := None;
     chatMessages := [ {| ChatMessage.role := model;
                          ChatMessage.text := "It has two columns.";
                          ChatMessage.timestamp := 1700000000002%Z |} ];
     isChatLoading := false;
     error := None |}.


(** ** The view (src/App.tsx, lines 81-153) *)

(** What the [main] element holds.  The last branch of the conditional,
    [analysis && fileData && (...)], gives nothing to draw when the file
    is missing. *)
Inductive MainView : Type :=
| UploadView (isLoading : bool) (banner : option string)
| ProcessingView
| WorkspaceView (result : DataAnalysisResult) (fileName : string)
    (messages : list ChatMessage.t) (isLoading : bool)
| NothingView.

Record Screen : Type := mkScreen
  { resetButton : bool;
    main : MainView }.

(** Lines 81-153.  [{fileData && <button/>}] at line 91, the conditional
    at lines 103, 117 and 128, and [{error && <div/>}] at line 110, where
    an empty string is falsy. *)
Definition render (s : Session) : Screen :=
  {| resetButton := match fileData s with Some _ => true | None => false end;
     main :=
       match analysis s, isProcessing s with
       | None, false =>
           UploadView (isProcessing s)
             (if Js.truthy (error s) then error s else None)
       | _, true => ProcessingView
       | Some result, false =>
           match fileData s with
           | Some file =>
               WorkspaceView result (FileData.name file) (chatMessages s)
                 (isChatLoading s)
           | None => NothingView
           end
       end |}.

(** *** More vocabulary *)

(** An environment in which the user acts on the screen (intent [i],
    whose own calls are answered by [other]) while the call issued at
    tick [tick] is awaited, and that handler settles before the call. *)
Definition during (tick : nat) (other : Env) (i : Intent) (env : Env) : Env :=
  {| respond := respond env;
     clock := clock env;
     meanwhile := fun n s =>
       if Nat.eqb n tick then final (dispatch (alone other) i s) else s |}.

(** The (file name, content) pairs with which a trace calls the analysis
    service. *)
Definition analysisRequests (tr : list Event) : list (string * string) :=
  flat_map
    (fun ev =>
       match ev with
       | EvCall c _ _ _ =>
           match c with
           | AnalyzeData fileName content => [(fileName, content)]
           | _ => []
           end
       | EvConsole _ => []
       end) tr.

(** The store in which a call was issued shows the spinner. *)
Definition issuedWhileProcessing (ev : Event) : Prop :=
  match ev with
  | EvCall _ _ issued _ =>
      isProcessing issued = true /\ error issued = None /\
      main (render issued) = ProcessingView
  | EvConsole _ => True
  end.

Fixpoint contains (c : ascii) (s : string) : bool :=
  match s with
  | EmptyString => false
  | String c' rest => Ascii.eqb c' c || contains c rest
  end.

(** A history in which every model message stands directly after a user
    message; [afterQuestion] tells whether the message before the list is
    a user message. *)
Fixpoint repliesFollowQuestions (afterQuestion : bool)
    (l : list ChatMessage.t) : bool :=
  match l with
  | [] => true
  | m :: rest =>
      match ChatMessage.role m with
      | user => repliesFollowQuestions true rest
      | model => afterQuestion && repliesFollowQuestions false rest
      end
  end.

(** Sessions of sequential use: from the initial session, the user acts
    on a control that is on screen and the handler settles before the
    next action. *)
Inductive Sequential : Session -> Prop :=
| sequential_start : Sequential initialSession
| sequential_step (env : Env) (i : Intent) (s : Session) :
    Sequential s ->
    offered s i = true ->
    Sequential (final (dispatch (alone env) i s)).

Definition settled (s : Session) : Prop :=
  isProcessing s = false /\
  isChatLoading s = false /\
  (fileData s = None -> analysis s = None) /\
  (analysis s = None -> chatMessages s = []) /\
  repliesFollowQuestions false (chatMessages s) = true /\
  (forall file, fileData s = Some file ->
                In (FileData.type file) supportedExtensions).

(** * Properties *)

(** ** Laws of the interpreter *)

Section RunLaws.

Variable env : Env.

Lemma logged_andThen A B ev (r : Run A) (next : A -> nat -> Session -> Run B) :
  logged ev (andThen r next) = andThen (logged ev r) next.
Proof.
  unfold andThen, logged, prefixed; simpl.
  destruct (completion r); reflexivity.
Qed.

Lemma logged_orCatch A ev (r : Run A) handler :
  logged ev (orCatch r handler) = orCatch (logged ev r) handler.
Proof.
  unfold orCatch, logged, prefixed; simpl.
  destruct (completion r); reflexivity.
Qed.

Lemma logged_andFinally A ev (r : Run A) cleanup :
  logged ev (andFinally r cleanup) = andFinally (logged ev r) cleanup.
Proof. reflexivity. Qed.

Lemma run_bind A B (p : Prog A) (f : A -> Prog B) n s :
  run env (bind p f) n s = andThen (run env p n s) (fun a => run env (f a)).
Proof.
  revert n s; induction p as [a|e|u k IH|k IH|e k IH|R c k IHk h IHh];
    intros n s; simpl.
  - unfold andThen, prefixed; simpl. now destruct (run env (f a) n s).
  - reflexivity.
  - apply IH.
  - apply IH.
  - rewrite IH. apply logged_andThen.
  - destruct (respond env n c); [rewrite IHk | rewrite IHh];
      apply logged_andThen.
Qed.

Lemma run_tryCatch A (p : Prog A) handler n s :
  run env (tryCatch p handler) n s
  = orCatch (run env p n s) (fun e => run env (handler e)).
Proof.
  revert n s; induction p as [a|e|u k IH|k IH|e k IH|R c k IHk h IHh];
    intros n s; simpl.
  - reflexivity.
  - unfold orCatch, prefixed; simpl. now destruct (run env (handler e) n s).
  - apply IH.
  - apply IH.
  - rewrite IH. apply logged_orCatch.
  - destruct (respond env n c); [rewrite IHk | rewrite IHh];
      apply logged_orCatch.
Qed.

Lemma run_tryFinally A (p : Prog A) cleanup n s :
  run env (tryFinally p cleanup) n s
  = andFinally (run env p n s) (run env cleanup).
Proof.
  revert n s; induction p as [a|e|u k IH|k IH|e k IH|R c k IHk h IHh];
    intros n s; simpl.
  - rewrite run_bind. unfold andThen, andFinally, prefixed; simpl.
    destruct (completion (run env cleanup n s)); simpl;
      rewrite ?app_nil_r; reflexivity.
  - rewrite run_bind. unfold andThen, andFinally, prefixed; simpl.
    destruct (completion (run env cleanup n s)); simpl;
      rewrite ?app_nil_r; reflexivity.
  - apply IH.
  - apply IH.
  - rewrite IH. apply logged_andFinally.
  - destruct (respond env n c); [rewrite IHk | rewrite IHh];
      apply logged_andFinally.
Qed.

(** A handler never reads the store: how it completes and how many ticks
    it takes do not depend on the store it runs against. *)
Lemma run_store_blind A (p : Prog A) n s s' :
  completion (run env p n s) = completion (run env p n s')
  /\ ticks (run env p n s) = ticks (run env p n s').
Proof.
  revert n s s'; induction p as [a|e|u k IH|k IH|e k IH|R c k IHk h IHh];
    intros n s s'; simpl; auto.
  destruct (respond env n c); auto.
Qed.

End RunLaws.

(** ** JavaScript operations *)

Lemma split_not_empty sep s : Js.split sep s <> [].
Proof.
  destruct s as [|c rest]; simpl; [discriminate|].
  destruct (Ascii.eqb c sep); [discriminate|].
  destruct (Js.split sep rest); discriminate.
Qed.

Lemma pop_defined A (a : list A) : a <> [] -> Js.pop a <> None.
Proof.
  induction a as [|x [|y rest] IH]; simpl in *; intros H;
    [congruence | discriminate | apply IH; discriminate].
Qed.

(** The optional chaining of line 23 never meets [undefined]. *)
Lemma extensionOf_defined file : extensionOf file <> None.
Proof.
  unfold extensionOf, Js.optChain.
  pose proof (pop_defined (split_not_empty "." (File.name file))) as H.
  destruct (Js.pop (Js.split "." (File.name file))); congruence.
Qed.

Example extension_of_upper_case :
  extensionOf {| File.name := "Q3.Sales.XLSX"; File.bytes := "" |} = Some "xlsx".
Proof. reflexivity. Qed.

Example extension_without_dot :
  extensionOf {| File.name := "pdf"; File.bytes := "" |} = Some "pdf".
Proof. reflexivity. Qed.

Example extension_after_trailing_dot :
  extensionOf {| File.name := "notes."; File.bytes := "" |} = Some "".
Proof. reflexivity. Qed.

Lemma strictEq_true x literal : (x === literal) = true <-> x = Some literal.
Proof.
  destruct x as [s|]; simpl.
  - rewrite String.eqb_eq. split; congruence.
  - split; discriminate.
Qed.

Lemma strictEq_false x literal : (x === literal) = false <-> x <> Some literal.
Proof.
  rewrite <- strictEq_true. destruct (x === literal); split; congruence.
Qed.

Lemma orElse_nonempty x fallback : fallback <> "" -> Js.orElse x fallback <> "".
Proof. destruct x as [[|c s]|]; simpl; intros H; auto; discriminate. Qed.

(** ** Uploads *)

Lemma extract_unsupported file ext :
  ~ In ext (map Some supportedExtensions) ->
  extract file ext = Throw (Error unsupportedMessage).
Proof.
  intros H. unfold extract.
  assert (forall l, In l supportedExtensions -> (ext === l) = false) as F.
  { intros l Hl. apply strictEq_false. intros ->. apply H. now apply in_map. }
  rewrite !F; simpl; auto 6.
Qed.

Lemma strategyFor_supported ext :
  In ext (map Some supportedExtensions) <-> strategyFor ext <> None.
Proof.
  unfold strategyFor, supportedExtensions; simpl. split.
  - intros [<-|[<-|[<-|[<-|[]]]]]; discriminate.
  - destruct ext as [e|]; [|congruence].
    destruct (String.eqb_spec e "csv") as [->|_]; [auto|].
    destruct (String.eqb_spec e "xlsx") as [->|_]; [auto|].
    destruct (String.eqb_spec e "xls") as [->|_]; [auto|].
    destruct (String.eqb_spec e "pdf") as [->|_]; [auto 6|congruence].
Qed.

Lemma extract_supported file ext st :
  strategyFor ext = Some st -> extract file ext = perform st file.
Proof.
  unfold strategyFor, extract, Js.strictEq.
  destruct ext as [e|]; [|discriminate].
  destruct (String.eqb e "csv"); [intros [= <-]; reflexivity|].
  destruct (String.eqb e "xlsx"); [intros [= <-]; reflexivity|].
  destruct (String.eqb e "xls"); [intros [= <-]; reflexivity|].
  destruct (String.eqb e "pdf"); [intros [= <-]; reflexivity|discriminate].
Qed.

Lemma perform_outcome env st file s :
  completion (run (alone env) (perform st file) 0 s)
  = strategyOutcome env st file.
Proof.
  destruct st; simpl.
  - destruct (respond env 0 (FileText file)) as [t|e]; simpl; [|reflexivity].
    destruct (respond env 1 (ParseCSV t)); reflexivity.
  - destruct (respond env 0 (ParseExcel file)); reflexivity.
  - destruct (respond env 0 (ParsePDF file)); reflexivity.
Qed.

(** Extraction updates no cell. *)
Lemma extract_final env file ext n s :
  final (run (alone env) (extract file ext) n s) = s.
Proof.
  unfold extract.
  destruct (ext === "csv"); [|destruct ((ext === "xlsx") || (ext === "xls"));
                               [|destruct (ext === "pdf")]]; simpl.
  - destruct (respond env n (FileText file)) as [t|e]; simpl; [|reflexivity].
    destruct (respond env (S n) (ParseCSV t)); reflexivity.
  - destruct (respond env n (ParseExcel file)); reflexivity.
  - destruct (respond env n (ParsePDF file)); reflexivity.
  - reflexivity.
Qed.

(** The three ways an upload can go, and the store each leaves. *)
Lemma upload_run env file s :
  let r := dispatch (alone env) (FileSelected file) s in
  completion r =
    match completion (extraction env file) with
    | Thrown e => caught e
    | Returned content =>
        match respond env (ticks (extraction env file))
                (AnalyzeData (File.name file) content) with
        | Rejected e => caught e
        | Resolved _ => Returned tt
        end
    end /\
  final r =
    match completion (extraction env file) with
    | Thrown e => failedUpload s (fileData s) e
    | Returned content =>
        match respond env (ticks (extraction env file))
                (AnalyzeData (File.name file) content) with
        | Rejected e => failedUpload s (Some (ingested file content)) e
        | Resolved result => completedUpload s (ingested file content) result
        end
    end.
Proof.
  unfold dispatch, App, handleFileSelect, extraction.
  cbn [bind setIsProcessing setError run].
  rewrite run_tryFinally, run_tryCatch.
  unfold uploadAttempt. rewrite run_bind.
  match goal with
  | |- context [run (alone env) (extract file (extensionOf file)) 0 ?s2] =>
      pose proof (run_store_blind (alone env) (extract file (extensionOf file))
                    0 s2 initialSession) as [Hc Ht];
      pose proof (extract_final env file (extensionOf file) 0 s2) as Hf;
      destruct (run (alone env) (extract file (extensionOf file)) 0 s2)
        as [f2 c2 tr2 k2]
  end.
  simpl in Hc, Ht, Hf. rewrite <- Hc, <- Ht. subst f2.
  destruct c2 as [content|e]; unfold andFinally, orCatch, andThen; simpl.
  - destruct (respond env k2 (AnalyzeData (File.name file) content))
      as [result|[v|message]]; simpl; split; reflexivity.
  - destruct e as [v|message]; split; reflexivity.
Qed.

Lemma uploadFailure_cases env file :
  uploadFailure env file =
    match completion (extraction env file) with
    | Thrown e => Some e
    | Returned content =>
        match respond env (ticks (extraction env file))
                (AnalyzeData (File.name file) content) with
        | Rejected e => Some e
        | Resolved _ => None
        end
    end.
Proof.
  unfold uploadFailure, uploadAttempt, extraction. rewrite run_bind.
  destruct (run (alone env) (extract file (extensionOf file)) 0 initialSession)
    as [f c tr k].
  unfold andThen; simpl. destruct c as [content|e]; simpl; [|reflexivity].
  destruct (respond env k (AnalyzeData (File.name file) content)); reflexivity.
Qed.

(** The scenario of the specification: [data.csv] goes through and the
    session is ready with the stub analysis stored. *)
Example upload_data_csv :
  completion (extraction fineWorld dataCsv) = Returned csvText /\
  final (dispatch fineWorld (FileSelected dataCsv) initialSession) = readySession.
Proof. split; reflexivity. Qed.

(** [staleSession] arises from clicks on controls that are on screen: the
    upload of [data.csv], a question, and reset while the answer is
    awaited.  The upload form is then on screen again. *)
Lemma staleSession_reachable :
  offered initialSession (FileSelected dataCsv) = true /\
  offered readySession (MessageSent "How many columns?") = true /\
  offered (awaitingReply readySession
             (userMessage fineWorld "How many columns?")) ResetClicked = true /\
  final (dispatch (resetDuring 1 fineWorld) (MessageSent "How many columns?")
           (final (dispatch fineWorld (FileSelected dataCsv) initialSession)))
  = staleSession /\
  offered staleSession (FileSelected reportDocx) = true.
Proof. repeat split. Qed.

(** C1 (as amended).  When an upload that runs alone fails with a thrown
    value other than [null] and [undefined], the handler still returns
    normally, the processing flag is off again, the error message is the
    failure's message (the fixed fallback when that message is empty or
    absent), and the analysis, the chat history and the chat-loading flag
    are what they were before the upload.  The file is what it was before
    when the failure is an unsupported extension or an extraction
    failure; when extraction went through and the analysis call failed,
    the file is the newly ingested one. *)
Theorem failed_upload_effect env file s message :
  uploadFailure env file = Some (ThrownObject message) ->
  let r := dispatch (alone env) (FileSelected file) s in
  completion r = Returned tt /\
  isProcessing (final r) = false /\
  error (final r) = Some (Js.orElse message processingFallback) /\
  analysis (final r) = analysis s /\
  chatMessages (final r) = chatMessages s /\
  isChatLoading (final r) = isChatLoading s /\
  match completion (extraction env file) with
  | Thrown _ => fileData (final r) = fileData s
  | Returned content => fileData (final r) = Some (ingested file content)
  end.
Proof.
  intros Hfail r. destruct (upload_run env file s) as [Hc Hf].
  fold r in Hc, Hf. rewrite uploadFailure_cases in Hfail.
  rewrite Hf, Hc. clear Hf Hc r.
  destruct (completion (extraction env file)) as [content|e'].
  - destruct (respond env (ticks (extraction env file))
                (AnalyzeData (File.name file) content)); [discriminate|].
    injection Hfail as ->. simpl. repeat split.
  - injection Hfail as ->. simpl. repeat split.
Qed.

Lemma failed_upload_effect_witness :
  uploadFailure pdfUnreadable scanPdf = Some pdfError /\
  let r := dispatch (alone pdfUnreadable) (FileSelected scanPdf) staleSession in
  completion r = Returned tt /\
  isProcessing (final r) = false /\
  error (final r) = Some "Invalid PDF structure" /\
  analysis (final r) = None /\
  chatMessages (final r) = chatMessages staleSession /\
  isChatLoading (final r) = false /\
  fileData (final r) = None.
Proof.
  split; [reflexivity|].
  exact (failed_upload_effect pdfUnreadable scanPdf staleSession eq_refl).
Defined.

(** C1, counterexample.  From the initial session, the upload of
    [data.csv] with a failing analysis call is a failed upload, and it
    leaves the file set: the file field is neither null nor what it was
    before the upload. *)
Lemma failed_analysis_stores_file :
  uploadFailure analysisDown dataCsv = Some quotaError /\
  fileData initialSession = None /\
  let r := dispatch (alone analysisDown) (FileSelected dataCsv) initialSession in
  error (final r) = Some "Quota exceeded" /\
  fileData (final r)
  = Some {| FileData.name := "data.csv";
            FileData.content := csvText;
            FileData.type := "csv" |} /\
  fileData (final r) <> None /\
  fileData (final r) <> fileData initialSession.
Proof. repeat split; discriminate. Qed.

(** C2 (as amended).  An upload that runs alone and succeeds leaves the
    chat history empty, the file set to the newly ingested file and the
    analysis set to the result of its analysis call; an upload that fails
    leaves the chat history and the analysis as they were. *)
Theorem upload_chat_history env file s :
  let r := dispatch (alone env) (FileSelected file) s in
  match uploadFailure env file with
  | Some _ =>
      chatMessages (final r) = chatMessages s /\ analysis (final r) = analysis s
  | None =>
      chatMessages (final r) = [] /\
      exists content result,
        completion (extraction env file) = Returned content /\
        respond env (ticks (extraction env file))
          (AnalyzeData (File.name file) content) = Resolved result /\
        fileData (final r) = Some (ingested file content) /\
        analysis (final r) = Some result
  end.
Proof.
  intros r. destruct (upload_run env file s) as [_ Hf]. fold r in Hf.
  rewrite uploadFailure_cases, Hf. clear Hf r.
  destruct (completion (extraction env file)) as [content|e]; [|now split].
  destruct (respond env (ticks (extraction env file))
              (AnalyzeData (File.name file) content)) as [result|e] eqn:E;
    [|now split].
  split; [reflexivity|]. exists content, result. repeat split; exact E.
Qed.

(** C2, counterexample.  In [staleSession] the chat history holds one
    message; the upload of [report.docx] fails on the extension and the
    chat history still holds that message afterwards. *)
Lemma failed_upload_keeps_chat :
  let r := dispatch (alone fineWorld) (FileSelected reportDocx) staleSession in
  uploadFailure fineWorld reportDocx = Some (Error unsupportedMessage) /\
  chatMessages (final r) = chatMessages staleSession /\
  chatMessages (final r) <> [].
Proof. repeat split; discriminate. Qed.

(** ** Chat turns and reset *)

(** A chat turn with a file loaded, in any world. *)
Lemma send_run env s text file :
  fileData s = Some file ->
  dispatch env (MessageSent text) s =
    let o := respond env 1 (chatRequest s file text) in
    let issued := awaitingReply s (userMessage env text) in
    let settled := meanwhile env 1 issued in
    {| final := turnEnd env settled o;
       completion := turnCompletion o;
       trace := [EvCall (chatRequest s file text) o issued settled];
       ticks := match replyBody o with Some _ => 3 | None => 2 end |}.
Proof.
  intros H. unfold dispatch, App, handleSendMessage. rewrite H. simpl.
  unfold chatRequest, stripTimestamp.
  destruct (respond env 1 _) as [response|[v|message]]; reflexivity.
Qed.

Lemma reset_run env s :
  dispatch env ResetClicked s =
    {| final := cleared s; completion := Returned tt; trace := []; ticks := 0 |}.
Proof. reflexivity. Qed.

(** Unfolds a chat turn that runs alone, given that a file is loaded
    ([Hfile]) and what the chat call settles with ([Hsettled]). *)
Ltac chat_turn_alone Hfile Hsettled :=
  match goal with
  | |- context [dispatch (alone ?env) (MessageSent ?text) ?s] =>
      rewrite (send_run (alone env) s text Hfile);
      cbn [respond clock meanwhile alone];
      rewrite Hsettled; simpl;
      rewrite <- app_assoc; simpl
  end.

(** The first question after an upload is grounded in the text that the
    upload extracted, with an empty history. *)
Lemma question_after_upload env0 env file s0 text content result :
  completion (extraction env0 file) = Returned content ->
  respond env0 (ticks (extraction env0 file))
    (AnalyzeData (File.name file) content) = Resolved result ->
  let s := final (dispatch (alone env0) (FileSelected file) s0) in
  exists o issued settled,
    trace (dispatch env (MessageSent text) s)
    = [EvCall (ChatWithData text content []) o issued settled].
Proof.
  intros Hx Ha s. destruct (upload_run env0 file s0) as [_ Hf].
  rewrite Hx, Ha in Hf. fold s in Hf.
  assert (fileData s = Some (ingested file content)) as Hfile
    by (rewrite Hf; reflexivity).
  rewrite (send_run env s text Hfile). unfold chatRequest.
  rewrite Hf. simpl. do 3 eexists. reflexivity.
Qed.

(** C3.  A [handleSendMessage] whose closure holds no file returns at
    once: the store is left exactly as it was (so the chat history has
    the same length and no error is recorded), no call is made, and
    nothing is thrown. *)
Theorem send_without_file env render text n store :
  fileData render = None ->
  let r := run env (App render (MessageSent text)) n store in
  final r = store /\ completion r = Returned tt /\ trace r = [] /\
  length (chatMessages (final r)) = length (chatMessages store) /\
  error (final r) = error store.
Proof. intros H. simpl. unfold handleSendMessage. rewrite H. simpl. auto. Qed.

Lemma send_without_file_witness :
  fileData staleSession = None /\
  let r := dispatch fineWorld (MessageSent "Anyone there?") staleSession in
  final r = staleSession /\ completion r = Returned tt /\ trace r = [] /\
  length (chatMessages (final r)) = 1 /\
  error (final r) = None.
Proof.
  split; [reflexivity|].
  exact (send_without_file fineWorld staleSession "Anyone there?" 0
           staleSession eq_refl).
Defined.

(** C4 (as amended).  A chat turn with a file loaded that runs alone and
    whose chat call resolves appends exactly two messages: the user
    message with the submitted text, then a model message that carries the
    reply text when that text is not empty and the fixed fallback text
    when it is empty.  The user message is already in the store when the
    chat call is issued. *)
Theorem send_success env s text file reply :
  fileData s = Some file ->
  respond env 1 (chatRequest s file text) = Resolved reply ->
  let r := dispatch (alone env) (MessageSent text) s in
  completion r = Returned tt /\
  chatMessages (final r) =
    chatMessages s ++
      [ {| ChatMessage.role := user;
           ChatMessage.text := text;
           ChatMessage.timestamp := clock env 0 |};
        {| ChatMessage.role := model;
           ChatMessage.text :=
             if String.eqb reply "" then chatFallback else reply;
           ChatMessage.timestamp := clock env 2 |} ] /\
  exists issued,
    trace r = [EvCall (chatRequest s file text) (Resolved reply) issued issued]
    /\ chatMessages issued =
         chatMessages s ++ [ {| ChatMessage.role := user;
                                ChatMessage.text := text;
                                ChatMessage.timestamp := clock env 0 |} ].
Proof.
  intros Hfile Hreply r. subst r. chat_turn_alone Hfile Hreply. repeat split.
  - destruct reply; reflexivity.
  - eexists. split; reflexivity.
Qed.

Lemma send_success_witness :
  fileData readySession
  = Some {| FileData.name := "data.csv";
            FileData.content := csvText;
            FileData.type := "csv" |} /\
  chatMessages
    (final (dispatch (alone fineWorld) (MessageSent "How many columns?")
              readySession))
  = [ {| ChatMessage.role := user;
         ChatMessage.text := "How many columns?";
         ChatMessage.timestamp := 1700000000000%Z |};
      {| ChatMessage.role := model;
         ChatMessage.text := "It has two columns.";
         ChatMessage.timestamp := 1700000000002%Z |} ].
Proof.
  split; [reflexivity|].
  exact (proj1 (proj2 (send_success fineWorld readySession "How many columns?"
                         eq_refl eq_refl))).
Defined.

(** C4, counterexample.  With [data.csv] loaded and a chat call that
    resolves with the empty text, the model message does not carry the
    reply text: whatever the timestamps, the chat history is not the user
    message followed by a model message with the empty text. *)
Lemma empty_reply_not_carried :
  respond silentModel 1
    (chatRequest readySession
       {| FileData.name := "data.csv";
          FileData.content := csvText;
          FileData.type := "csv" |} "How many columns?") = Resolved "" /\
  forall t1 t2,
    chatMessages
      (final (dispatch (alone silentModel) (MessageSent "How many columns?")
                readySession))
    <> chatMessages readySession ++
       [ {| ChatMessage.role := user;
            ChatMessage.text := "How many columns?";
            ChatMessage.timestamp := t1 |};
         {| ChatMessage.role := model;
            ChatMessage.text := "";
            ChatMessage.timestamp := t2 |} ].
Proof. split; [reflexivity|]. intros t1 t2. simpl. discriminate. Qed.

(** X19.  A chat turn with a file loaded that runs alone and whose chat
    call fails with a thrown value other than [null] and [undefined]
    appends exactly two messages: the user message, then a model message
    whose text is ["Error: "] followed by the failure's message (the text
    [undefined] when the value has no message).  The handler returns
    normally: nothing is thrown past it. *)
Theorem send_failure env s text file message :
  fileData s = Some file ->
  respond env 1 (chatRequest s file text) = Rejected (ThrownObject message) ->
  let r := dispatch (alone env) (MessageSent text) s in
  completion r = Returned tt /\
  chatMessages (final r) =
    chatMessages s ++
      [ {| ChatMessage.role := user;
           ChatMessage.text := text;
           ChatMessage.timestamp := clock env 0 |};
        {| ChatMessage.role := model;
           ChatMessage.text :=
             "Error: " ++ match message with
                          | Some msg => msg
                          | None => "undefined"
                          end;
           ChatMessage.timestamp := clock env 2 |} ].
Proof.
  intros Hfile Hreply r. subst r. chat_turn_alone Hfile Hreply.
  split; [reflexivity|].
  destruct message; reflexivity.
Qed.

Lemma send_failure_witness :
  fileData readySession
  = Some {| FileData.name := "data.csv";
            FileData.content := csvText;
            FileData.type := "csv" |} /\
  let r := dispatch (alone chatDown) (MessageSent "How many columns?")
             readySession in
  completion r = Returned tt /\
  chatMessages (final r)
  = [ {| ChatMessage.role := user;
         ChatMessage.text := "How many columns?";
         ChatMessage.timestamp := 1700000000000%Z |};
      {| ChatMessage.role := model;
         ChatMessage.text := "Error: Failed to fetch";
         ChatMessage.timestamp := 1700000000002%Z |} ].
Proof.
  split; [reflexivity|].
  exact (send_failure chatDown readySession "How many columns?"
           eq_refl eq_refl).
Defined.

(** C5, the code where it departs from the claim.  A chat turn with a
    file loaded that runs alone and whose chat call is rejected with
    [null] or [undefined] appends the user message only: reading the
    message of the rejection at line 67 throws inside the [catch] block,
    no model message is built, the [finally] block clears the loading
    flag, and the handler ends by throwing that [TypeError]. *)
Theorem send_failure_nullish env s text file v :
  fileData s = Some file ->
  respond env 1 (chatRequest s file text) = Rejected (ThrownNullish v) ->
  let r := dispatch (alone env) (MessageSent text) s in
  completion r = Thrown (cannotReadMessage v) /\
  chatMessages (final r) =
    chatMessages s ++
      [ {| ChatMessage.role := user;
           ChatMessage.text := text;
           ChatMessage.timestamp := clock env 0 |} ] /\
  isChatLoading (final r) = false.
Proof.
  intros Hfile Hreply r. subst r.
  rewrite (send_run (alone env) s text Hfile).
  cbn [respond clock meanwhile alone]. rewrite Hreply.
  repeat split.
Qed.

Lemma send_failure_nullish_witness :
  fileData readySession
  = Some {| FileData.name := "data.csv";
            FileData.content := csvText;
            FileData.type := "csv" |} /\
  let r := dispatch (alone chatRejectsUndefined)
             (MessageSent "How many columns?") readySession in
  completion r = Thrown (cannotReadMessage JsUndefined) /\
  chatMessages (final r)
  = [ {| ChatMessage.role := user;
         ChatMessage.text := "How many columns?";
         ChatMessage.timestamp := 1700000000000%Z |} ] /\
  isChatLoading (final r) = false.
Proof.
  split; [reflexivity|].
  exact (send_failure_nullish chatRejectsUndefined readySession
           "How many columns?" eq_refl eq_refl).
Defined.

(** C6.  From every session, reset returns normally without making any
    call (so without suspending), and leaves the file, the analysis and
    the error message null and the chat history empty. *)
Theorem reset_clears env s :
  let r := dispatch env ResetClicked s in
  completion r = Returned tt /\ trace r = [] /\ ticks r = 0 /\
  fileData (final r) = None /\ analysis (final r) = None /\
  chatMessages (final r) = [] /\ error (final r) = None.
Proof. rewrite reset_run. repeat split. Qed.

(** C7 (as amended).  When the extension of the file is not one of csv,
    xlsx, xls and pdf, extraction throws the unsupported-format error
    without making any call, and the upload (running alone) ends with
    that error's message recorded, the processing flag off and every
    other field, the file and the analysis among them, as before.  When
    the extension is one of the four, extraction is the strategy that the
    extension selects (CSV passthrough, spreadsheet conversion or document
    extraction) and completes as that strategy does: it returns the
    extracted text when the strategy's calls resolve and throws the
    strategy's error when one of them fails. *)
Theorem ingestion_by_extension env file s :
  (~ In (extensionOf file) (map Some supportedExtensions) ->
   let r := dispatch (alone env) (FileSelected file) s in
   extract file (extensionOf file) = Throw (Error unsupportedMessage) /\
   completion r = Returned tt /\
   trace r = [EvConsole (Error unsupportedMessage)] /\
   final r = {| isProcessing := false;
                fileData := fileData s;
                analysis := analysis s;
                chatMessages := chatMessages s;
                isChatLoading := isChatLoading s;
                error := Some unsupportedMessage |})
  /\
  (In (extensionOf file) (map Some supportedExtensions) ->
   exists st,
     strategyFor (extensionOf file) = Some st /\
     extract file (extensionOf file) = perform st file /\
     completion (extraction env file) = strategyOutcome env st file).
Proof.
  split.
  - intros H r. pose proof (extract_unsupported file H) as E.
    subst r. unfold dispatch, App, handleFileSelect, uploadAttempt.
    rewrite E. repeat split.
  - intros H. apply strategyFor_supported in H.
    destruct (strategyFor (extensionOf file)) as [st|] eqn:E; [|congruence].
    exists st. split; [reflexivity|].
    pose proof (extract_supported file _ E) as P. split; [exact P|].
    unfold extraction. rewrite P. apply perform_outcome.
Qed.

Lemma docx_not_supported :
  ~ In (extensionOf reportDocx) (map Some supportedExtensions).
Proof. simpl. intros [H|[H|[H|[H|[]]]]]; discriminate H. Defined.

Lemma csv_supported : In (extensionOf dataCsv) (map Some supportedExtensions).
Proof. left. reflexivity. Defined.

Lemma ingestion_by_extension_witness :
  (let r := dispatch (alone fineWorld) (FileSelected reportDocx)
              initialSession in
   completion r = Returned tt /\
   fileData (final r) = None /\
   analysis (final r) = None /\
   error (final r) = Some unsupportedMessage)
  /\
  (exists st,
     strategyFor (extensionOf dataCsv) = Some st /\
     extract dataCsv (extensionOf dataCsv) = perform st dataCsv /\
     completion (extraction fineWorld dataCsv) = Returned csvText).
Proof.
  split.
  - destruct (proj1 (ingestion_by_extension fineWorld reportDocx initialSession)
                docx_not_supported) as (_ & Hc & _ & Hf).
    cbv zeta. split; [exact Hc|]. rewrite Hf. repeat split.
  - destruct (proj2 (ingestion_by_extension fineWorld dataCsv initialSession)
                csv_supported) as (st & Hs & He & Hc).
    exists st. split; [exact Hs|]. split; [exact He|].
    rewrite Hc. injection Hs as <-. reflexivity.
Defined.

(** C7, counterexample.  [scan.pdf] has a supported extension, yet with a
    PDF parser that fails extraction returns no text: it throws the
    parser's error. *)
Lemma unreadable_pdf_no_text :
  In (extensionOf scanPdf) (map Some supportedExtensions) /\
  completion (extraction pdfUnreadable scanPdf) = Thrown pdfError /\
  forall content,
    completion (extraction pdfUnreadable scanPdf) <> Returned content.
Proof.
  split; [right; right; right; left; reflexivity|].
  split; [reflexivity|]. intros content. simpl. discriminate.
Qed.

(** C8.  A chat turn with a file loaded makes exactly one call, the chat
    call, with three arguments: the submitted text, the content of the
    loaded file, and the chat history of the session in which the turn
    started, each message reduced to its role and text.  That history is
    without the new user message, which is in the store by the time the
    call is issued. *)
Theorem chat_call_arguments env s text file :
  fileData s = Some file ->
  exists o issued settled,
    trace (dispatch env (MessageSent text) s) =
      [EvCall (ChatWithData text (FileData.content file)
                 (map (fun m => (ChatMessage.role m, ChatMessage.text m))
                    (chatMessages s)))
         o issued settled] /\
    chatMessages issued =
      chatMessages s ++ [ {| ChatMessage.role := user;
                             ChatMessage.text := text;
                             ChatMessage.timestamp := clock env 0 |} ].
Proof.
  intros Hfile. rewrite (send_run env s text Hfile). simpl.
  do 3 eexists. split; reflexivity.
Qed.

(** The session after one answered question. *)
Lemma chat_call_arguments_witness :
  let s := final (dispatch fineWorld (MessageSent "How many columns?")
                    readySession) in
  exists o issued settled,
    trace (dispatch fineWorld (MessageSent "And rows?") s) =
      [EvCall (ChatWithData "And rows?" csvText
                 [(user, "How many columns?"); (model, "It has two columns.")])
         o issued settled] /\
    length (chatMessages issued) = 3.
Proof.
  destruct (chat_call_arguments fineWorld
              (final (dispatch fineWorld (MessageSent "How many columns?")
                        readySession))
              "And rows?" eq_refl) as (o & issued & settled & Ht & Hi).
  exists o, issued, settled. split; [exact Ht|]. rewrite Hi. reflexivity.
Defined.

(** C9 (as amended).  On the success path of a chat turn that runs
    alone, the appended model message never has an empty text, and when
    the chat call resolves with the empty text the model message carries
    the fixed fallback text.  The user message before it carries the
    submitted text as it is. *)
Theorem empty_reply_fallback env s text file reply :
  fileData s = Some file ->
  respond env 1 (chatRequest s file text) = Resolved reply ->
  let r := dispatch (alone env) (MessageSent text) s in
  exists m,
    chatMessages (final r) = chatMessages s ++ [userMessage env text; m] /\
    ChatMessage.role m = model /\
    ChatMessage.text m <> "" /\
    (reply = "" -> ChatMessage.text m = "Sorry, I could not process that.").
Proof.
  intros Hfile Hreply r. subst r. chat_turn_alone Hfile Hreply.
  eexists. split; [reflexivity|]. simpl. split; [reflexivity|].
  split; [destruct reply; discriminate | intros ->; reflexivity].
Qed.

Lemma empty_reply_fallback_witness :
  exists m,
    chatMessages
      (final (dispatch (alone silentModel) (MessageSent "How many columns?")
                readySession))
    = [userMessage silentModel "How many columns?"; m] /\
    ChatMessage.role m = model /\
    ChatMessage.text m = "Sorry, I could not process that.".
Proof.
  destruct (empty_reply_fallback silentModel readySession "How many columns?"
              eq_refl eq_refl) as (m & Hchat & Hrole & _ & Htext).
  exists m. split; [exact Hchat|]. split; [exact Hrole|].
  exact (Htext eq_refl).
Defined.

(** C9, counterexample.  With [data.csv] loaded, an empty question and a
    chat call that resolves with the empty text, the turn is on the
    success path and the chat history holds a message with an empty
    text: the user message, which lines 53-54 append as submitted. *)
Lemma empty_question_kept :
  let file := {| FileData.name := "data.csv";
                 FileData.content := csvText;
                 FileData.type := "csv" |} in
  let r := dispatch (alone silentModel) (MessageSent "") readySession in
  fileData readySession = Some file /\
  respond silentModel 1 (chatRequest readySession file "") = Resolved "" /\
  completion r = Returned tt /\
  chatMessages (final r)
  = [ {| ChatMessage.role := user;
         ChatMessage.text := "";
         ChatMessage.timestamp := 1700000000000%Z |};
      {| ChatMessage.role := model;
         ChatMessage.text := "Sorry, I could not process that.";
         ChatMessage.timestamp := 1700000000002%Z |} ] /\
  exists m, In m (chatMessages (final r)) /\ ChatMessage.text m = "".
Proof.
  repeat split. eexists. split; [left; reflexivity | reflexivity].
Qed.

(** C10.  Reset changes the file, the analysis, the chat history and the
    error message and nothing else: the processing flag and the
    chat-loading flag are as before.  So when reset is clicked while the
    chat call of a turn is awaited, the chat-loading flag is set when the
    call is issued, still set after the reset, and cleared only when the
    call has settled. *)
Theorem reset_keeps_flags env s :
  (let r := dispatch env ResetClicked s in
   isProcessing (final r) = isProcessing s /\
   isChatLoading (final r) = isChatLoading s /\
   final r = {| isProcessing := isProcessing s;
                fileData := None;
                analysis := None;
                chatMessages := [];
                isChatLoading := isChatLoading s;
                error := None |})
  /\
  (forall text file,
     fileData s = Some file ->
     let r := dispatch (resetDuring 1 env) (MessageSent text) s in
     exists o issued settled,
       trace r = [EvCall (chatRequest s file text) o issued settled] /\
       isChatLoading issued = true /\
       settled = final (dispatch (alone env) ResetClicked issued) /\
       isChatLoading settled = true /\
       isChatLoading (final r) = false).
Proof.
  split; [repeat split|].
  intros text file Hfile r. subst r.
  rewrite (send_run (resetDuring 1 env) s text Hfile). simpl.
  do 3 eexists. repeat split.
Qed.

Lemma reset_keeps_flags_witness :
  let r := dispatch (resetDuring 1 fineWorld) (MessageSent "How many columns?")
             readySession in
  exists o issued settled,
    trace r =
      [EvCall (ChatWithData "How many columns?" csvText []) o issued settled] /\
    isChatLoading issued = true /\
    fileData settled = None /\
    isChatLoading settled = true /\
    isChatLoading (final r) = false.
Proof.
  destruct (proj2 (reset_keeps_flags fineWorld readySession)
              "How many columns?" _ eq_refl)
    as (o & issued & settled & Ht & Hi & Hs & Hl & Hf).
  exists o, issued, settled. repeat split; try assumption.
  rewrite Hs. reflexivity.
Defined.


(** * Further properties of the handlers and of the view *)

(** ** The extension of a file name (line 23) *)

Lemma lowerChar_dot c : Ascii.eqb (Js.lowerChar c) "." = Ascii.eqb c ".".
Proof. destruct c as [[] [] [] [] [] [] [] []]; reflexivity. Qed.

Lemma lowerChar_idempotent c : Js.lowerChar (Js.lowerChar c) = Js.lowerChar c.
Proof. destruct c as [[] [] [] [] [] [] [] []]; reflexivity. Qed.

Lemma toLowerCase_idempotent s :
  Js.toLowerCase (Js.toLowerCase s) = Js.toLowerCase s.
Proof.
  induction s as [|c s IH]; simpl; [reflexivity|].
  now rewrite lowerChar_idempotent, IH.
Qed.

Lemma split_toLowerCase s :
  Js.split "." (Js.toLowerCase s) = map Js.toLowerCase (Js.split "." s).
Proof.
  induction s as [|c s IH]; simpl; [reflexivity|].
  rewrite lowerChar_dot, IH.
  destruct (Ascii.eqb c "."); [reflexivity|].
  pose proof (split_not_empty "." s) as H.
  destruct (Js.split "." s); [congruence|reflexivity].
Qed.

Lemma pop_map A B (f : A -> B) (a : list A) :
  Js.pop (map f a) = Js.optChain (Js.pop a) f.
Proof.
  induction a as [|x [|y rest] IH]; simpl in *; [reflexivity..|exact IH].
Qed.

Lemma split_without_separator sep s :
  contains sep s = false -> Js.split sep s = [s].
Proof.
  induction s as [|c s IH]; simpl; [reflexivity|].
  destruct (Ascii.eqb c sep); simpl; [discriminate|].
  intros H. now rewrite (IH H).
Qed.

Lemma pop_cons A (x : A) (a : list A) : a <> [] -> Js.pop (x :: a) = Js.pop a.
Proof. destruct a; [congruence|reflexivity]. Qed.

Lemma split_after_separator sep base rest :
  exists piece pieces,
    Js.split sep (base ++ String sep rest) = piece :: pieces /\
    pieces <> [] /\
    Js.pop pieces = Js.pop (Js.split sep rest).
Proof.
  induction base as [|c base (piece & pieces & E & Hne & Hpop)]; simpl.
  - rewrite Ascii.eqb_refl. exists "", (Js.split sep rest).
    repeat split. apply split_not_empty.
  - rewrite E. destruct (Ascii.eqb c sep).
    + exists "", (piece :: pieces). repeat split; [discriminate|].
      now rewrite pop_cons.
    + exists (String c piece), pieces. repeat split; assumption.
Qed.

Lemma pop_split_after_separator sep base rest :
  Js.pop (Js.split sep (base ++ String sep rest)) = Js.pop (Js.split sep rest).
Proof.
  destruct (split_after_separator sep base rest)
    as (piece & pieces & E & Hne & Hpop).
  now rewrite E, pop_cons.
Qed.

(** X1.  Only the last dot of the name counts: for a name that is some
    text, a dot and a dot-free ending, the extension is that ending in
    lower case, whatever comes before the dot (other dots included). *)
Theorem extension_after_last_dot base ending bytes :
  contains "." ending = false ->
  extensionOf {| File.name := base ++ String "." ending; File.bytes := bytes |}
  = Some (Js.toLowerCase ending).
Proof.
  intros H. unfold extensionOf. simpl.
  rewrite pop_split_after_separator, (split_without_separator _ _ H).
  reflexivity.
Qed.

Lemma extension_after_last_dot_witness :
  contains "." "XLS" = false /\
  extensionOf {| File.name := "2024.q3.sales.XLS"; File.bytes := "" |}
  = Some "xls".
Proof.
  split; [reflexivity|].
  exact (extension_after_last_dot "2024.q3.sales" "XLS" "" eq_refl).
Defined.

(** X2.  A name without any dot is its own extension: a file that is
    just called [CSV] or [pdf] is taken for a CSV or a PDF file, and any
    other dot-free name is rejected with the whole name looked up as the
    extension. *)
Theorem extension_of_dotless_name name bytes :
  contains "." name = false ->
  extensionOf {| File.name := name; File.bytes := bytes |}
  = Some (Js.toLowerCase name).
Proof.
  intros H. unfold extensionOf. simpl.
  now rewrite (split_without_separator _ _ H).
Qed.

Lemma extension_of_dotless_name_witness :
  contains "." "CSV" = false /\
  extensionOf {| File.name := "CSV"; File.bytes := "" |} = Some "csv" /\
  strategyFor (extensionOf {| File.name := "CSV"; File.bytes := "" |})
  = Some CsvPassthrough.
Proof.
  split; [reflexivity|].
  pose proof (extension_of_dotless_name "CSV" "" eq_refl) as H.
  split; [exact H|]. rewrite H. reflexivity.
Defined.

(** X3.  The case of the letters A to Z in a file name does not matter:
    the name and its lower-case form have the same extension, so they
    are extracted by the same calls. *)
Theorem extension_ignores_case name bytes :
  extensionOf {| File.name := Js.toLowerCase name; File.bytes := bytes |}
  = extensionOf {| File.name := name; File.bytes := bytes |}.
Proof.
  unfold extensionOf. simpl. rewrite split_toLowerCase, pop_map.
  destruct (Js.pop (Js.split "." name)); simpl; [|reflexivity].
  now rewrite toLowerCase_idempotent.
Qed.

(** ** Uploads (lines 18-48) *)

Lemma extraction_returned_supported env file content :
  completion (extraction env file) = Returned content ->
  In (extensionOf file) (map Some supportedExtensions).
Proof.
  intros H. apply strategyFor_supported.
  destruct (strategyFor (extensionOf file)) eqn:E; [discriminate|].
  assert (~ In (extensionOf file) (map Some supportedExtensions)) as Hout.
  { intros Hin. apply strategyFor_supported in Hin. congruence. }
  unfold extraction in H. rewrite (extract_unsupported file Hout) in H.
  discriminate H.
Qed.

Lemma supported_type ext :
  In ext (map Some supportedExtensions) ->
  ext = Some (Js.orElse ext "") /\ In (Js.orElse ext "") supportedExtensions.
Proof.
  simpl. intros [<-|[<-|[<-|[<-|[]]]]]; simpl; auto 6.
Qed.

Lemma failed_upload_final env file s e :
  uploadFailure env file = Some e ->
  exists stored,
    final (dispatch (alone env) (FileSelected file) s) = failedUpload s stored e.
Proof.
  intros Hfail. destruct (upload_run env file s) as [_ Hf].
  rewrite uploadFailure_cases in Hfail. rewrite Hf.
  destruct (completion (extraction env file)) as [content|e'].
  - destruct (respond env (ticks (extraction env file))
                (AnalyzeData (File.name file) content)); [discriminate|].
    injection Hfail as ->. eexists. reflexivity.
  - injection Hfail as ->. eexists. reflexivity.
Qed.

(** Splits an upload into the cases of its extension and of what its
    calls settle with. *)
Ltac upload_cases env file :=
  unfold dispatch, App, handleFileSelect, uploadAttempt, extraction, extract;
  destruct (extensionOf file === "csv");
    [|destruct ((extensionOf file === "xlsx") || (extensionOf file === "xls"));
      [|destruct (extensionOf file === "pdf")]];
  simpl;
  repeat match goal with
         | |- context [respond env ?n ?c] =>
             destruct (respond env n c) as [?|[?|?]]; simpl
         end.

(** X4.  Whenever extraction returns, the file that the upload stores
    carries the name of the uploaded file, the extracted content, and as
    type the extension itself, which is one of csv, xlsx, xls and pdf:
    the empty type of line 36's [extension || ''] is never stored. *)
Theorem stored_file_type env file s content :
  completion (extraction env file) = Returned content ->
  let r := dispatch (alone env) (FileSelected file) s in
  exists stored,
    fileData (final r) = Some stored /\
    FileData.name stored = File.name file /\
    FileData.content stored = content /\
    extensionOf file = Some (FileData.type stored) /\
    In (FileData.type stored) supportedExtensions.
Proof.
  intros Hx r. destruct (upload_run env file s) as [_ Hf]. fold r in Hf.
  rewrite Hx in Hf. exists (ingested file content).
  destruct (supported_type (extraction_returned_supported env file Hx))
    as [Hext Hin].
  repeat split; try assumption.
  rewrite Hf.
  destruct (respond env (ticks (extraction env file))
              (AnalyzeData (File.name file) content)); reflexivity.
Qed.

Lemma stored_file_type_witness :
  completion (extraction analysisDown dataCsv) = Returned csvText /\
  exists stored,
    fileData (final (dispatch (alone analysisDown) (FileSelected dataCsv)
                       initialSession)) = Some stored /\
    FileData.type stored = "csv".
Proof.
  split; [reflexivity|].
  destruct (stored_file_type analysisDown dataCsv initialSession eq_refl)
    as (stored & Hs & _ & _ & Hext & _).
  exists stored. split; [exact Hs|].
  injection Hext as <-. reflexivity.
Defined.

(** X5.  An upload that runs alone asks for the analysis at most once,
    only after extraction has returned, and then with the name of the
    file and exactly the extracted content; when extraction throws
    (unsupported extension or failing reader or parser) the analysis
    service is never called. *)
Theorem analysis_requested_after_extraction env file s :
  analysisRequests (trace (dispatch (alone env) (FileSelected file) s))
  = match completion (extraction env file) with
    | Returned content => [(File.name file, content)]
    | Thrown _ => []
    end.
Proof. upload_cases env file; reflexivity. Qed.

(** X6.  While an upload runs alone, every call it makes is issued from
    a store in which the processing flag is set and the error message is
    cleared, so the screen shows the spinner during each of its
    awaits. *)
Theorem upload_calls_show_spinner env file s :
  Forall issuedWhileProcessing
    (trace (dispatch (alone env) (FileSelected file) s)).
Proof.
  upload_cases env file;
    repeat (constructor; simpl; try (destruct (analysis s); tauto)).
Qed.

(** How a handler completes depends on what its calls settle with and
    on the clock, not on the store nor on what happens to the store
    during the awaits. *)
Lemma run_store_and_interleaving_blind A (p : Prog A) env env' :
  (forall n R (c : ExtCall R), respond env n c = respond env' n c) ->
  (forall n, clock env n = clock env' n) ->
  forall n s s',
    completion (run env p n s) = completion (run env' p n s') /\
    ticks (run env p n s) = ticks (run env' p n s').
Proof.
  intros Hr Hc.
  induction p as [a|e|u k IH|k IH|e k IH|R c k IHk h IHh];
    intros n s s'; simpl; auto.
  - rewrite Hc. apply IH.
  - rewrite Hr. destruct (respond env' n c); auto.
Qed.

(** X7.  Whatever its calls settle with and whatever other handlers do
    to the store during its awaits, [handleFileSelect] leaves the
    processing flag off.  It returns normally when the upload succeeds
    and when it fails with a thrown value other than [null] and
    [undefined]; when the thrown value is [null] or [undefined], reading
    its message at line 44 throws and the handler ends by throwing that
    [TypeError]. *)
Theorem upload_always_settles env file s :
  let r := dispatch env (FileSelected file) s in
  isProcessing (final r) = false /\
  completion r =
    match uploadFailure env file with
    | None | Some (ThrownObject _) => Returned tt
    | Some (ThrownNullish v) => Thrown (cannotReadMessage v)
    end.
Proof.
  unfold dispatch, App, handleFileSelect, uploadFailure.
  cbn [bind setIsProcessing setError run].
  rewrite run_tryFinally, run_tryCatch.
  match goal with
  | |- context [run env (uploadAttempt file) 0 ?s2] =>
      destruct (@run_store_and_interleaving_blind _ (uploadAttempt file)
                  env (alone env) (fun _ _ _ => eq_refl) (fun _ => eq_refl)
                  0 s2 initialSession) as [Hc _];
      rewrite <- Hc;
      destruct (run env (uploadAttempt file) 0 s2) as [f [[]|[v|message]] tr k]
  end;
    unfold andFinally, orCatch; simpl; split; reflexivity.
Qed.

Lemma upload_always_settles_witness :
  let r := dispatch (resetDuring 2 analysisRejectsNull) (FileSelected dataCsv)
             initialSession in
  isProcessing (final r) = false /\
  completion r = Thrown (cannotReadMessage JsNull).
Proof.
  exact (upload_always_settles (resetDuring 2 analysisRejectsNull) dataCsv
           initialSession).
Defined.

(** X8.  After a failed upload that ran alone in a session without
    analysis, the screen shows the upload form, not loading.  When the
    thrown value is other than [null] and [undefined] the form comes with
    the error banner, and the banner's text is never empty: a failure
    whose message is empty or absent shows the fixed fallback text.  When
    the thrown value is [null] or [undefined] there is no banner: the
    failure leaves no trace on the screen. *)
Theorem failed_upload_shows_banner env file s e :
  uploadFailure env file = Some e ->
  analysis s = None ->
  let r := dispatch (alone env) (FileSelected file) s in
  exists banner,
    main (render (final r)) = UploadView false banner /\
    banner = match e with
             | ThrownObject (Some "") | ThrownObject None =>
                 Some processingFallback
             | ThrownObject (Some msg) => Some msg
             | ThrownNullish _ => None
             end /\
    (forall text, banner = Some text -> text <> "").
Proof.
  intros Hfail Hnone r.
  destruct (failed_upload_final env file s Hfail) as [stored Hf].
  fold r in Hf. rewrite Hf.
  unfold render, failedUpload; simpl. rewrite Hnone.
  destruct e as [v|[[|c msg]|]]; simpl; eexists;
    (split; [reflexivity|]); (split; [reflexivity|]);
    intros text [= <-]; discriminate.
Qed.

Lemma failed_upload_shows_banner_witness :
  uploadFailure analysisRejectsBare dataCsv = Some (ThrownObject None) /\
  uploadFailure analysisRejectsNull dataCsv = Some (ThrownNullish JsNull) /\
  analysis initialSession = None /\
  main (render (final (dispatch (alone analysisRejectsBare)
                         (FileSelected dataCsv) initialSession)))
  = UploadView false (Some "An error occurred during file processing.") /\
  main (render (final (dispatch (alone analysisRejectsNull)
                         (FileSelected dataCsv) initialSession)))
  = UploadView false None.
Proof.
  split; [reflexivity|]. split; [reflexivity|]. split; [reflexivity|].
  destruct (failed_upload_shows_banner analysisRejectsBare dataCsv
              initialSession eq_refl eq_refl) as (b1 & Hv1 & Hb1 & _).
  destruct (failed_upload_shows_banner analysisRejectsNull dataCsv
              initialSession eq_refl eq_refl) as (b2 & Hv2 & Hb2 & _).
  rewrite Hv1, Hv2, Hb1, Hb2. split; reflexivity.
Defined.

(** ** Chat turns and actions during an await (lines 50-79) *)

(** X9.  Whatever the chat call settles with and whatever other handlers
    do to the store while it is awaited, a chat turn with a file loaded
    makes the chat call and no other, ends with the chat-loading flag
    off, and leaves the processing flag, the file, the analysis and the
    error message as it found them when the call settled.  When the call
    resolves, or is rejected with a value other than [null] and
    [undefined], the turn returns normally and adds exactly one model
    message at the end of the history it found; when the call is
    rejected with [null] or [undefined], the turn adds nothing to that
    history and ends by throwing the [TypeError] of line 67. *)
Theorem chat_turn_always_settles env s text file :
  fileData s = Some file ->
  let r := dispatch env (MessageSent text) s in
  exists o issued found,
    trace r = [EvCall (chatRequest s file text) o issued found] /\
    isChatLoading (final r) = false /\
    isProcessing (final r) = isProcessing found /\
    fileData (final r) = fileData found /\
    analysis (final r) = analysis found /\
    error (final r) = error found /\
    match o with
    | Resolved _ | Rejected (ThrownObject _) =>
        completion r = Returned tt /\
        exists reply,
          ChatMessage.role reply = model /\
          chatMessages (final r) = chatMessages found ++ [reply]
    | Rejected (ThrownNullish v) =>
        completion r = Thrown (cannotReadMessage v) /\
        chatMessages (final r) = chatMessages found
    end.
Proof.
  intros Hfile r. subst r. rewrite (send_run env s text Hfile). simpl.
  do 3 eexists. split; [reflexivity|]. repeat (split; [reflexivity|]).
  unfold turnEnd. simpl.
  destruct (respond env 1 (chatRequest s file text)) as [reply|[v|message]];
    simpl; (split; [reflexivity|]); try reflexivity;
    eexists (modelMessage env _); split; reflexivity.
Qed.

Lemma chat_turn_always_settles_witness :
  fileData readySession <> None /\
  let r := dispatch
             (during 1 fineWorld (FileSelected reportDocx) chatRejectsUndefined)
             (MessageSent "How many columns?") readySession in
  exists o issued found,
    trace r = [EvCall (chatRequest readySession
                         {| FileData.name := "data.csv";
                            FileData.content := csvText;
                            FileData.type := "csv" |} "How many columns?")
                 o issued found] /\
    isChatLoading (final r) = false.
Proof.
  split; [discriminate|].
  destruct (chat_turn_always_settles
              (during 1 fineWorld (FileSelected reportDocx)
                 chatRejectsUndefined)
              readySession "How many columns?" eq_refl)
    as (o & issued & found & Ht & Hl & _).
  exists o, issued, found. split; [exact Ht | exact Hl].
Defined.

(** X10.  When reset is clicked while the chat call of a turn is awaited
    and the call then settles with a reply (it resolves, or is rejected
    with a value other than [null] and [undefined]), the reply still
    lands: the session ends without file and without analysis but with a
    chat history of exactly one message, the model's late reply, with no
    question before it. *)
Theorem late_reply_after_reset env s text file body :
  fileData s = Some file ->
  replyBody (respond env 1 (chatRequest s file text)) = Some body ->
  let r := dispatch (resetDuring 1 env) (MessageSent text) s in
  final r = {| isProcessing := isProcessing s;
               fileData := None;
               analysis := None;
               chatMessages := [ {| ChatMessage.role := model;
                                    ChatMessage.text := body;
                                    ChatMessage.timestamp := clock env 2 |} ];
               isChatLoading := false;
               error := None |} /\
  repliesFollowQuestions false (chatMessages (final r)) = false.
Proof.
  intros Hfile Hbody r. subst r.
  rewrite (send_run (resetDuring 1 env) s text Hfile).
  unfold turnEnd. cbn [respond clock meanwhile resetDuring final].
  rewrite Hbody. split; reflexivity.
Qed.

Lemma late_reply_after_reset_witness :
  fileData readySession <> None /\
  replyBody (respond fineWorld 1
               (chatRequest readySession
                  {| FileData.name := "data.csv";
                     FileData.content := csvText;
                     FileData.type := "csv" |} "How many columns?"))
  = Some "It has two columns." /\
  final (dispatch (resetDuring 1 fineWorld) (MessageSent "How many columns?")
           readySession) = staleSession.
Proof.
  split; [discriminate|]. split; [reflexivity|].
  exact (proj1 (late_reply_after_reset fineWorld readySession
                  "How many columns?" eq_refl eq_refl)).
Defined.

(** X11.  When a second question is sent while the first is awaited, the
    second call settles first, and both calls settle with a reply (each
    resolves, or is rejected with a value other than [null] and
    [undefined]), both turns append to the same history: the two
    questions in the order asked, then the two replies in the order the
    calls settled, so the second reply stands before the first.  The
    second call's history holds the first question but not its reply,
    and the loading flag is already off when the second turn ends, with
    the first call still in flight. *)
Theorem overlapping_turns env1 env2 s text1 text2 file body1 body2 :
  fileData s = Some file ->
  replyBody (respond env1 1 (chatRequest s file text1)) = Some body1 ->
  replyBody (respond env2 1
               (ChatWithData text2 (FileData.content file)
                  (map stripTimestamp (chatMessages s)
                   ++ [(user, text1)]))) = Some body2 ->
  let r := dispatch (during 1 env2 (MessageSent text2) env1)
             (MessageSent text1) s in
  exists o1 issued found,
    trace r = [EvCall (chatRequest s file text1) o1 issued found] /\
    isChatLoading issued = true /\
    isChatLoading found = false /\
    chatMessages (final r)
    = chatMessages s ++
        [ userMessage env1 text1; userMessage env2 text2;
          modelMessage env2 body2; modelMessage env1 body1 ].
Proof.
  intros Hfile Hb1 Hb2 r. subst r.
  rewrite (send_run (during 1 env2 (MessageSent text2) env1) s text1 Hfile).
  cbn [respond clock meanwhile during Nat.eqb final trace].
  change (userMessage (during 1 env2 (MessageSent text2) env1) text1)
    with (userMessage env1 text1).
  assert (fileData (awaitingReply s (userMessage env1 text1)) = Some file)
    as Hfile' by exact Hfile.
  rewrite (send_run (alone env2) _ text2 Hfile').
  change (userMessage (alone env2) text2) with (userMessage env2 text2).
  unfold turnEnd, chatRequest in *.
  cbn [respond clock meanwhile alone during final chatMessages awaitingReply
       isChatLoading].
  unfold stripTimestamp, Turn in *. rewrite map_app.
  change (map (fun m => (ChatMessage.role m, ChatMessage.text m))
            [userMessage env1 text1]) with [(user, text1)].
  rewrite Hb1, Hb2.
  do 3 eexists. split; [reflexivity|]. split; [reflexivity|].
  split; [reflexivity|].
  rewrite <- !app_assoc. reflexivity.
Qed.

Lemma overlapping_turns_witness :
  fileData readySession <> None /\
  chatMessages
    (final (dispatch
              (during 1 silentModel (MessageSent "And rows?") fineWorld)
              (MessageSent "How many columns?") readySession))
  = [ userMessage fineWorld "How many columns?";
      userMessage silentModel "And rows?";
      modelMessage silentModel "Sorry, I could not process that.";
      modelMessage fineWorld "It has two columns." ].
Proof.
  split; [discriminate|].
  destruct (overlapping_turns fineWorld silentModel readySession
              "How many columns?" "And rows?" eq_refl eq_refl eq_refl)
    as (o1 & issued & found & _ & _ & _ & Hchat).
  exact Hchat.
Defined.

(** X12.  When reset is clicked while the analysis call of an upload is
    awaited (the reset button is on screen then, the file being stored
    already) and the analysis then arrives, the session ends with an
    analysis but without file: the screen draws nothing in its main
    area, shows no reset button, and no control is left to act on. *)
Theorem reset_during_analysis env file s content result :
  completion (extraction env file) = Returned content ->
  respond env (ticks (extraction env file))
    (AnalyzeData (File.name file) content) = Resolved result ->
  let r := dispatch (resetDuring (ticks (extraction env file)) env)
             (FileSelected file) s in
  (exists o issued found,
     In (EvCall (AnalyzeData (File.name file) content) o issued found)
        (trace r) /\
     offered issued ResetClicked = true) /\
  final r = {| isProcessing := false;
               fileData := None;
               analysis := Some result;
               chatMessages := [];
               isChatLoading := isChatLoading s;
               error := None |} /\
  render (final r) = {| resetButton := false; main := NothingView |} /\
  forall i, offered (final r) i = false.
Proof.
  intros Hx Ha r. subst r. revert Hx Ha.
  unfold dispatch, App, handleFileSelect, uploadAttempt, extraction, extract.
  destruct (extensionOf file === "csv");
    [|destruct ((extensionOf file === "xlsx") || (extensionOf file === "xls"));
      [|destruct (extensionOf file === "pdf")]];
    simpl;
    repeat match goal with
           | |- context [respond env ?n (FileText ?f)] =>
               destruct (respond env n (FileText f)); simpl
           | |- context [respond env ?n (ParseCSV ?t)] =>
               destruct (respond env n (ParseCSV t)); simpl
           | |- context [respond env ?n (ParseExcel ?f)] =>
               destruct (respond env n (ParseExcel f)); simpl
           | |- context [respond env ?n (ParsePDF ?f)] =>
               destruct (respond env n (ParsePDF f)); simpl
           end;
    intros Hx Ha; try discriminate Hx;
    injection Hx as ->; rewrite Ha; simpl;
    (split; [do 3 eexists; split; [eauto 6 using in_eq, in_cons|reflexivity]|]);
    (split; [reflexivity|]); (split; [reflexivity|]);
    intros [f|t|]; reflexivity.
Qed.

Lemma reset_during_analysis_witness :
  completion (extraction fineWorld dataCsv) = Returned csvText /\
  render (final (dispatch (resetDuring 2 fineWorld) (FileSelected dataCsv)
                   initialSession))
  = {| resetButton := false; main := NothingView |}.
Proof.
  split; [reflexivity|].
  exact (proj1 (proj2 (proj2 (reset_during_analysis fineWorld dataCsv
                                initialSession eq_refl eq_refl)))).
Defined.

(** ** Sequential use *)

(** The controls that [offered] speaks of are those that [render]
    draws. *)
Lemma offered_on_screen s :
  (forall file,
     offered s (FileSelected file) = true
     <-> exists banner, main (render s) = UploadView false banner) /\
  (forall text,
     offered s (MessageSent text) = true
     <-> exists result name messages loading,
           main (render s) = WorkspaceView result name messages loading) /\
  (offered s ResetClicked = true <-> resetButton (render s) = true).
Proof.
  unfold offered, render; simpl.
  destruct (analysis s), (isProcessing s), (fileData s); simpl;
    repeat split; intros; try discriminate; try tauto; eauto;
    repeat match goal with
           | H : exists _, _ |- _ => destruct H
           end; discriminate.
Qed.

Lemma question_appended afterQuestion l question :
  repliesFollowQuestions afterQuestion l = true ->
  ChatMessage.role question = user ->
  repliesFollowQuestions afterQuestion (l ++ [question]) = true.
Proof.
  intros Hl Hq. revert afterQuestion Hl.
  induction l as [|m l IH]; simpl; intros afterQuestion Hl.
  - now rewrite Hq.
  - destruct (ChatMessage.role m); [apply IH; exact Hl|].
    apply andb_true_iff in Hl as [-> Hl]. simpl. apply IH; exact Hl.
Qed.

Lemma turn_appended afterQuestion l question answer :
  repliesFollowQuestions afterQuestion l = true ->
  ChatMessage.role question = user ->
  repliesFollowQuestions afterQuestion ((l ++ [question]) ++ [answer]) = true.
Proof.
  intros Hl Hq. rewrite <- app_assoc. simpl. revert afterQuestion Hl.
  induction l as [|m l IH]; simpl; intros afterQuestion Hl.
  - rewrite Hq. destruct (ChatMessage.role answer); reflexivity.
  - destruct (ChatMessage.role m); [apply IH; exact Hl|].
    apply andb_true_iff in Hl as [-> Hl]. simpl. apply IH; exact Hl.
Qed.

Lemma offered_upload s file :
  offered s (FileSelected file) = true ->
  analysis s = None /\ isProcessing s = false.
Proof.
  unfold offered. destruct (analysis s), (isProcessing s);
    simpl; intros H; try discriminate; auto.
Qed.

Lemma offered_message s text :
  offered s (MessageSent text) = true ->
  exists file result,
    fileData s = Some file /\ analysis s = Some result /\
    isProcessing s = false.
Proof.
  unfold offered. destruct (analysis s), (isProcessing s), (fileData s);
    simpl; intros H; try discriminate; eauto.
Qed.

(** What sequential use keeps true between actions: nothing is in
    flight, a session without file has no analysis, a session without
    analysis has no chat history, every model message of the chat
    history stands directly after a user message, and the type of the
    stored file is a supported extension. *)
Lemma sequential_settled s : Sequential s -> settled s.
Proof.
  induction 1 as [|env i s Hseq (Hp & Hl & Hfa & Hac & Hfollow & Htype) Hoff].
  - repeat split; try reflexivity; simpl; try discriminate.
  - destruct i as [file|text|].
    + destruct (offered_upload s file Hoff) as [Hnone _].
      destruct (upload_run env file s) as [_ Hf]. rewrite Hf. clear Hf.
      destruct (completion (extraction env file)) as [content|e] eqn:Hx.
      * destruct (supported_type (extraction_returned_supported env file Hx))
          as [_ Hin].
        destruct (respond env (ticks (extraction env file))
                    (AnalyzeData (File.name file) content));
          unfold settled; simpl; repeat split; auto; try discriminate;
          intros stored [= <-]; exact Hin.
      * unfold settled; simpl; repeat split; auto.
    + destruct (offered_message s text Hoff) as (file & result & Hfile & Hres & _).
      rewrite (send_run (alone env) s text Hfile).
      unfold settled, turnEnd; simpl.
      repeat split; auto; try congruence.
      destruct (replyBody (respond env 1 (chatRequest s file text)));
        [apply turn_appended | apply question_appended]; auto.
    + rewrite reset_run. unfold settled; simpl.
      repeat split; auto; discriminate.
Qed.

Lemma readySession_sequential : Sequential readySession.
Proof.
  exact (sequential_step fineWorld (FileSelected dataCsv)
           sequential_start eq_refl).
Defined.

Lemma answeredSession_sequential :
  Sequential (final (dispatch (alone chatDown) (MessageSent "How many columns?")
                       readySession)).
Proof.
  exact (sequential_step chatDown (MessageSent "How many columns?")
           readySession_sequential eq_refl).
Defined.

(** X13.  In sequential use the screen is never stuck: between actions
    it shows either the upload form, ready to take any file, or the
    workspace with the stored file's analysis and the chat, ready to take
    a question, together with the reset button.  It never rests on the
    spinner or on an empty main area. *)
Theorem sequential_never_stuck s :
  Sequential s ->
  (exists banner,
     main (render s) = UploadView false banner /\
     analysis s = None /\
     forall file, offered s (FileSelected file) = true)
  \/
  (exists stored result,
     main (render s)
     = WorkspaceView result (FileData.name stored) (chatMessages s) false /\
     fileData s = Some stored /\ analysis s = Some result /\
     resetButton (render s) = true /\
     offered s ResetClicked = true /\
     forall text, offered s (MessageSent text) = true).
Proof.
  intros Hseq.
  destruct (sequential_settled Hseq) as (Hp & Hl & Hfa & _).
  unfold render, offered; simpl. rewrite Hp, Hl.
  destruct (analysis s) as [result|] eqn:Ha.
  - right. destruct (fileData s) as [stored|] eqn:Hf.
    + exists stored, result. repeat split.
    + specialize (Hfa eq_refl). discriminate.
  - left. eexists. repeat split.
Qed.

Lemma sequential_never_stuck_witness :
  exists stored result,
    main (render readySession)
    = WorkspaceView result (FileData.name stored) [] false /\
    offered readySession ResetClicked = true.
Proof.
  destruct (sequential_never_stuck readySession_sequential)
    as [(banner & Hview & Hnone & _)
       |(stored & result & Hview & _ & _ & _ & Hreset & _)].
  - discriminate Hnone.
  - exists stored, result. split; [exact Hview | exact Hreset].
Defined.

(** X14.  In sequential use the chat history is empty whenever the
    session has no analysis, and no model message stands without its
    question: every model message comes directly after a user message,
    so the first message, when there is one, is a user message. *)
Theorem sequential_replies_follow_questions s :
  Sequential s ->
  repliesFollowQuestions false (chatMessages s) = true /\
  (analysis s = None -> chatMessages s = []) /\
  (forall first rest,
     chatMessages s = first :: rest -> ChatMessage.role first = user).
Proof.
  intros Hseq.
  destruct (sequential_settled Hseq) as (_ & _ & _ & Hac & Hfollow & _).
  split; [exact Hfollow|]. split; [exact Hac|].
  intros first rest E. rewrite E in Hfollow. simpl in Hfollow.
  destruct (ChatMessage.role first); [reflexivity|discriminate].
Qed.

Lemma unansweredSession_sequential :
  Sequential (final (dispatch (alone chatRejectsUndefined)
                       (MessageSent "How many columns?") readySession)).
Proof.
  exact (sequential_step chatRejectsUndefined (MessageSent "How many columns?")
           readySession_sequential eq_refl).
Defined.

Lemma sequential_replies_follow_questions_witness :
  let s := final (dispatch (alone fineWorld) (MessageSent "And rows?")
                    (final (dispatch (alone chatRejectsUndefined)
                              (MessageSent "How many columns?")
                              readySession))) in
  map ChatMessage.role (chatMessages s) = [user; user; model] /\
  repliesFollowQuestions false (chatMessages s) = true.
Proof.
  split; [reflexivity|].
  exact (proj1 (sequential_replies_follow_questions
                  (sequential_step fineWorld (MessageSent "And rows?")
                     unansweredSession_sequential eq_refl))).
Defined.

(** X15.  In sequential use reset gives back the initial session, all
    six cells as at application start. *)
Theorem sequential_reset_initial env s :
  Sequential s ->
  final (dispatch env ResetClicked s) = initialSession.
Proof.
  intros Hseq. destruct (sequential_settled Hseq) as (Hp & Hl & _).
  rewrite reset_run. unfold cleared, initialSession. now rewrite Hp, Hl.
Qed.

Lemma sequential_reset_initial_witness :
  final (dispatch fineWorld ResetClicked
           (final (dispatch (alone chatDown) (MessageSent "How many columns?")
                     readySession)))
  = initialSession.
Proof.
  exact (sequential_reset_initial fineWorld answeredSession_sequential).
Defined.



(** ** Uploads after an earlier failure *)

(** X17.  A successful upload that runs alone ends without error
    message, whatever error the session held before: the banner of an
    earlier failure is gone after a successful retry. *)
Theorem successful_upload_clears_error env file s :
  uploadFailure env file = None ->
  let r := dispatch (alone env) (FileSelected file) s in
  error (final r) = None /\ isProcessing (final r) = false /\
  exists stored result,
    fileData (final r) = Some stored /\ analysis (final r) = Some result.
Proof.
  intros Hok r. destruct (upload_run env file s) as [_ Hf]. fold r in Hf.
  rewrite uploadFailure_cases in Hok. rewrite Hf. clear Hf r.
  destruct (completion (extraction env file)) as [content|e];
    [|discriminate].
  destruct (respond env (ticks (extraction env file))
              (AnalyzeData (File.name file) content)) as [result|e];
    [|discriminate].
  simpl. repeat split. eauto.
Qed.

Lemma successful_upload_clears_error_witness :
  let failed := final (dispatch (alone analysisDown) (FileSelected dataCsv)
                         initialSession) in
  error failed = Some "Quota exceeded" /\
  uploadFailure fineWorld dataCsv = None /\
  error (final (dispatch (alone fineWorld) (FileSelected dataCsv) failed))
  = None.
Proof.
  split; [reflexivity|]. split; [reflexivity|].
  exact (proj1 (successful_upload_clears_error fineWorld dataCsv
                  (final (dispatch (alone analysisDown) (FileSelected dataCsv)
                            initialSession)) eq_refl)).
Defined.

(** X18.  After an upload that ran alone in a session without analysis
    and whose analysis call failed, the screen shows the upload form
    and, the file being stored, the reset button as well; the chat is
    not on screen, so no question can be asked about the stored file,
    and a new upload can be started.  The form comes with the error
    banner when the thrown value is other than [null] and [undefined],
    and without banner when it is [null] or [undefined]. *)
Theorem failed_analysis_screen env file s content e :
  completion (extraction env file) = Returned content ->
  respond env (ticks (extraction env file))
    (AnalyzeData (File.name file) content) = Rejected e ->
  analysis s = None ->
  let r := dispatch (alone env) (FileSelected file) s in
  render (final r)
  = {| resetButton := true;
       main := UploadView false
                 match e with
                 | ThrownObject message =>
                     Some (Js.orElse message processingFallback)
                 | ThrownNullish _ => None
                 end |} /\
  (forall text, offered (final r) (MessageSent text) = false) /\
  (forall next, offered (final r) (FileSelected next) = true).
Proof.
  intros Hx Ha Hnone r. destruct (upload_run env file s) as [_ Hf].
  fold r in Hf. rewrite Hx, Ha in Hf. rewrite Hf. clear Hf r.
  unfold render, offered, failedUpload; simpl. rewrite Hnone.
  destruct e as [v|message]; simpl; [repeat split|].
  pose proof (@orElse_nonempty message processingFallback) as Hne.
  destruct (Js.orElse message processingFallback) as [|c msg];
    [exfalso; apply Hne; [discriminate|reflexivity]|].
  repeat split.
Qed.

Lemma failed_analysis_screen_witness :
  completion (extraction analysisDown dataCsv) = Returned csvText /\
  analysis initialSession = None /\
  render (final (dispatch (alone analysisDown) (FileSelected dataCsv)
                   initialSession))
  = {| resetButton := true;
       main := UploadView false (Some "Quota exceeded") |} /\
  render (final (dispatch (alone analysisRejectsNull) (FileSelected dataCsv)
                   initialSession))
  = {| resetButton := true; main := UploadView false None |}.
Proof.
  split; [reflexivity|]. split; [reflexivity|]. split.
  - exact (proj1 (failed_analysis_screen analysisDown dataCsv initialSession
                    eq_refl eq_refl eq_refl)).
  - exact (proj1 (failed_analysis_screen analysisRejectsNull dataCsv
                    initialSession eq_refl eq_refl eq_refl)).
Defined.
